(** * tbi-chat-app: a shallow embedding of [src/ChatApp.tsx]

    The React component [ChatApp] keeps its state in [useState] cells and
    reacts to user events with handlers that are closures over the state of
    the render in which they were created.  The embedding follows that
    discipline:

    - the component state is the record [State], one field per [useState];
    - a handler takes the closure state [c] (what its free variables read)
      and transforms a [Run]: the pending React state together with the
      trace of observable effects (network calls, waits, timers);
    - a setter called with a value overwrites the pending field, a setter
      called with an updater function is applied to the pending field, in
      call order, which is how React processes its update queue;
    - the network, the clock and [String.prototype.trim] are inputs. *)

From Stdlib Require Import ZArith List String Ascii Bool Lia DecimalString.
Import ListNotations.

Local Open Scope string_scope.
Local Open Scope Z_scope.

(** ** JavaScript values used by the component *)

Module Js.

(** [ToBoolean] on a string: the empty string is the only falsy one. *)
Definition truthy (s : string) : bool :=
  match s with
  | EmptyString => false
  | String _ _ => true
  end.

(** [a || b] on strings. *)
Definition or_else (a b : string) : string :=
  if truthy a then a else b.

(** [Array.prototype.join]. *)
Definition join (sep : string) (l : list string) : string :=
  String.concat sep l.

(** [Number.prototype.toString] on the integers the component prints. *)
Definition string_of_Z (z : Z) : string :=
  NilZero.string_of_int (Z.to_int z).

(** The line feed of the template literals and of the ["\n\n"] separator. *)
Definition nl : string := String (ascii_of_nat 10) EmptyString.

(** Message of the [TypeError] raised when property [prop] is read from
    [null] (the wording of V8; only its being an exception matters). *)
Definition null_read_error (prop : string) : string :=
  "Cannot read properties of null (reading '" ++ prop ++ "')".

End Js.

(** ** Types (lines 4-22 of the source) *)

Inductive Role := user | assistant | system.

Module ChatMessage.
Record t := mk { role : Role; content : string }.
End ChatMessage.

Module DocumentItem.
Record t := mk { name : string; type : string; content : string }.
End DocumentItem.

Module SavedChat.
Record t := mk {
  id : string;
  title : string;
  messages : list ChatMessage.t;
  documents : list DocumentItem.t;
  timestamp : string
}.
End SavedChat.

(** ** Component state: one field per [useState] (lines 25-57) *)

Record State := mkState {
  apiKey : string;
  message : string;
  chatHistory : list ChatMessage.t;
  savedChats : list SavedChat.t;
  currentChatId : string;
  currentChatTitle : string;
  isLoading : bool;
  error : option string;
  documents : list DocumentItem.t;
  showTextInput : bool;
  manualText : string;
  hasSentMessage : bool;
  isOnline : bool;
  isRetrying : bool
}.

Definition MAX_RETRIES : Z := 5.
Definition INITIAL_BACKOFF_MS : Z := 1000.

(** The state of a freshly mounted component, given what [localStorage]
    and [navigator.onLine] return. *)
Definition initialState (storedApiKey : string)
    (storedSavedChats : list SavedChat.t) (onLine : bool) : State :=
  {| apiKey := storedApiKey; message := EmptyString; chatHistory := [];
     savedChats := storedSavedChats; currentChatId := "new";
     currentChatTitle := "New Chat"; isLoading := false; error := None;
     documents := []; showTextInput := false; manualText := EmptyString;
     hasSentMessage := false; isOnline := onLine; isRetrying := false |}.

(** ** Observable effects and external inputs *)

Inductive Event :=
| Fetch (bearer : string) (messages : list ChatMessage.t)
    (* POST to the completions endpoint *)
| Wait (ms : Z)
    (* [await new Promise(resolve => setTimeout(resolve, ms))] *)
| Timer (ms : Z).
    (* [setTimeout(() => setError(null), ms)] *)

(** What [response.json()] yields.  A parsed body other than [null] is
    observed only through [data.choices?.[0]?.message] and
    [errorData.error?.message], and reading either from it never throws.
    [choice_message] is [None] when the first is falsy and otherwise the
    value, which the source casts to [ChatMessage]; [error_message] is
    [None] when the second is [undefined] or [null] and otherwise its
    value, taken to be a string, as the endpoint sends it.  (For a value
    that is not a string the source tests the value and prints its text;
    the two are not told apart here, which can only change the wording of
    an error message.) *)
Inductive Body :=
| Unparseable (err : string)
    (* [response.json()] rejects with an error whose message is [err] *)
| JNull
    (* the body is the JSON literal [null] *)
| JData (choice_message : option ChatMessage.t)
        (error_message : option string).

Record Response := mkResponse { status : Z; body : Body }.

(** [response.ok], as the Fetch standard defines it. *)
Definition ok (resp : Response) : bool :=
  (200 <=? status resp) && (status resp <=? 299).

Inductive FetchResult :=
| Rejected (err : string)
    (* [fetch] throws; [err] is [err.message], or [String(err)] *)
| Resolved (resp : Response).

(** The outcome of the k-th call of [fetch] within one invocation. *)
Definition Network := nat -> FetchResult.

(** [Date.now()] and [new Date().toISOString()] at the time of a save. *)
Record Clock := mkClock { now : Z; iso : string }.

(** ** Runs *)

Record Run := mkRun { st : State; trace : list Event }.

Definition Handler := Run -> Run.

Definition start (s : State) : Run := {| st := s; trace := [] |}.

Definition skip : Handler := fun r => r.

Definition seq_handler (f g : Handler) : Handler := fun r => g (f r).

Declare Scope handler_scope.
Delimit Scope handler_scope with handler.
Bind Scope handler_scope with Handler.
Notation "f ;; g" := (seq_handler f g)
  (at level 61, left associativity) : handler_scope.
Local Open Scope handler_scope.

Definition emit (e : Event) : Handler :=
  fun r => {| st := st r; trace := trace r ++ [e] |}.

Definition modify (f : State -> State) : Handler :=
  fun r => {| st := f (st r); trace := trace r |}.

(** *** The setters.  [setX v] overwrites, [setXWith f] applies an updater. *)

Definition setApiKey (v : string) : Handler :=
  modify (fun s => mkState v (message s) (chatHistory s) (savedChats s)
    (currentChatId s) (currentChatTitle s) (isLoading s) (error s)
    (documents s) (showTextInput s) (manualText s) (hasSentMessage s)
    (isOnline s) (isRetrying s)).

Definition setMessage (v : string) : Handler :=
  modify (fun s => mkState (apiKey s) v (chatHistory s) (savedChats s)
    (currentChatId s) (currentChatTitle s) (isLoading s) (error s)
    (documents s) (showTextInput s) (manualText s) (hasSentMessage s)
    (isOnline s) (isRetrying s)).

Definition setChatHistoryWith
    (f : list ChatMessage.t -> list ChatMessage.t) : Handler :=
  modify (fun s => mkState (apiKey s) (message s) (f (chatHistory s))
    (savedChats s) (currentChatId s) (currentChatTitle s) (isLoading s)
    (error s) (documents s) (showTextInput s) (manualText s)
    (hasSentMessage s) (isOnline s) (isRetrying s)).

Definition setChatHistory (v : list ChatMessage.t) : Handler :=
  setChatHistoryWith (fun _ => v).

Definition setSavedChatsWith
    (f : list SavedChat.t -> list SavedChat.t) : Handler :=
  modify (fun s => mkState (apiKey s) (message s) (chatHistory s)
    (f (savedChats s)) (currentChatId s) (currentChatTitle s) (isLoading s)
    (error s) (documents s) (showTextInput s) (manualText s)
    (hasSentMessage s) (isOnline s) (isRetrying s)).

Definition setCurrentChatId (v : string) : Handler :=
  modify (fun s => mkState (apiKey s) (message s) (chatHistory s)
    (savedChats s) v (currentChatTitle s) (isLoading s) (error s)
    (documents s) (showTextInput s) (manualText s) (hasSentMessage s)
    (isOnline s) (isRetrying s)).

Definition setCurrentChatTitle (v : string) : Handler :=
  modify (fun s => mkState (apiKey s) (message s) (chatHistory s)
    (savedChats s) (currentChatId s) v (isLoading s) (error s)
    (documents s) (showTextInput s) (manualText s) (hasSentMessage s)
    (isOnline s) (isRetrying s)).

Definition setIsLoading (v : bool) : Handler :=
  modify (fun s => mkState (apiKey s) (message s) (chatHistory s)
    (savedChats s) (currentChatId s) (currentChatTitle s) v (error s)
    (documents s) (showTextInput s) (manualText s) (hasSentMessage s)
    (isOnline s) (isRetrying s)).

Definition setError (v : option string) : Handler :=
  modify (fun s => mkState (apiKey s) (message s) (chatHistory s)
    (savedChats s) (currentChatId s) (currentChatTitle s) (isLoading s) v
    (documents s) (showTextInput s) (manualText s) (hasSentMessage s)
    (isOnline s) (isRetrying s)).

Definition setDocumentsWith
    (f : list DocumentItem.t -> list DocumentItem.t) : Handler :=
  modify (fun s => mkState (apiKey s) (message s) (chatHistory s)
    (savedChats s) (currentChatId s) (currentChatTitle s) (isLoading s)
    (error s) (f (documents s)) (showTextInput s) (manualText s)
    (hasSentMessage s) (isOnline s) (isRetrying s)).

Definition setDocuments (v : list DocumentItem.t) : Handler :=
  setDocumentsWith (fun _ => v).

Definition setShowTextInputWith (f : bool -> bool) : Handler :=
  modify (fun s => mkState (apiKey s) (message s) (chatHistory s)
    (savedChats s) (currentChatId s) (currentChatTitle s) (isLoading s)
    (error s) (documents s) (f (showTextInput s)) (manualText s)
    (hasSentMessage s) (isOnline s) (isRetrying s)).

Definition setShowTextInput (v : bool) : Handler :=
  setShowTextInputWith (fun _ => v).

Definition setManualText (v : string) : Handler :=
  modify (fun s => mkState (apiKey s) (message s) (chatHistory s)
    (savedChats s) (currentChatId s) (currentChatTitle s) (isLoading s)
    (error s) (documents s) (showTextInput s) v (hasSentMessage s)
    (isOnline s) (isRetrying s)).

Definition setHasSentMessage (v : bool) : Handler :=
  modify (fun s => mkState (apiKey s) (message s) (chatHistory s)
    (savedChats s) (currentChatId s) (currentChatTitle s) (isLoading s)
    (error s) (documents s) (showTextInput s) (manualText s) v
    (isOnline s) (isRetrying s)).

Definition setIsOnline (v : bool) : Handler :=
  modify (fun s => mkState (apiKey s) (message s) (chatHistory s)
    (savedChats s) (currentChatId s) (currentChatTitle s) (isLoading s)
    (error s) (documents s) (showTextInput s) (manualText s)
    (hasSentMessage s) v (isRetrying s)).

Definition setIsRetrying (v : bool) : Handler :=
  modify (fun s => mkState (apiKey s) (message s) (chatHistory s)
    (savedChats s) (currentChatId s) (currentChatTitle s) (isLoading s)
    (error s) (documents s) (showTextInput s) (manualText s)
    (hasSentMessage s) (isOnline s) v).

(** ** Conversation controller (lines 99-207) *)

(** The title a save stores (lines 112-116). *)
Definition titleToSave (c : State) : string :=
  Js.or_else (currentChatTitle c)
    (match chatHistory c with
     | m :: _ =>
         if Js.truthy (ChatMessage.content m)
         then substring 0 30 (ChatMessage.content m) ++ "..."
         else "Untitled"
     | [] => "Untitled"
     end).

Definition chatToSave (c : State) (clk : Clock) : SavedChat.t :=
  {| SavedChat.id :=
       if (currentChatId c =? "new")%string
       then Js.string_of_Z (now clk) else currentChatId c;
     SavedChat.title := titleToSave c;
     SavedChat.messages := chatHistory c;
     SavedChat.documents := documents c;
     SavedChat.timestamp := iso clk |}.

Definition saveCurrentChat (c : State) (clk : Clock) : Handler :=
  if (0 <? Z.of_nat (List.length (chatHistory c))) then
    setSavedChatsWith (fun prevChats =>
      let filteredChats :=
        if negb (currentChatId c =? "new")%string
        then filter (fun chat =>
               negb (SavedChat.id chat =? currentChatId c)%string) prevChats
        else prevChats in
      chatToSave c clk :: filteredChats) ;;
    (if (currentChatId c =? "new")%string
     then setCurrentChatId (SavedChat.id (chatToSave c clk))
     else skip)
  else skip.

Definition createNewChat (c : State) (clk : Clock) : Handler :=
  saveCurrentChat c clk ;;
  setCurrentChatId "new" ;;
  setCurrentChatTitle "New Chat" ;;
  setChatHistory [] ;;
  setDocuments [] ;;
  setHasSentMessage false.

(** [chatToLoad.documents || []] and [chatToLoad.messages && ...] guard
    against fields that the type [SavedChat] declares always present. *)
Definition loadChat (c : State) (clk : Clock) (chatId : string) : Handler :=
  saveCurrentChat c clk ;;
  match find (fun chat => (SavedChat.id chat =? chatId)%string)
             (savedChats c) with
  | Some chatToLoad =>
      setCurrentChatId (SavedChat.id chatToLoad) ;;
      setCurrentChatTitle (SavedChat.title chatToLoad) ;;
      setChatHistory (SavedChat.messages chatToLoad) ;;
      setDocuments (SavedChat.documents chatToLoad) ;;
      setHasSentMessage
        (0 <? Z.of_nat (List.length (SavedChat.messages chatToLoad)))
  | None => skip
  end.

Definition deleteChat (c : State) (clk : Clock) (chatId : string) : Handler :=
  setSavedChatsWith (fun prevChats =>
    filter (fun chat => negb (SavedChat.id chat =? chatId)%string)
           prevChats) ;;
  (if (currentChatId c =? chatId)%string then createNewChat c clk else skip).

Definition updateChatTitle (value : string) : Handler :=
  setCurrentChatTitle value.

Definition handleApiKeyChange (value : string) : Handler := setApiKey value.

Definition handleMessageChange (value : string) : Handler := setMessage value.

(** A file as [FileReader.readAsText] delivers it: [result] is [None] when
    [event.target?.result] is not a string. *)
Record LoadedFile := mkFile {
  file_name : string; file_type : string; file_result : option string
}.

(** The continuation of [Promise.all] in [handleFileUpload]. *)
Definition handleFileUpload (newFiles : list LoadedFile) : Handler :=
  let processedFiles :=
    map (fun file =>
      {| DocumentItem.name := file_name file;
         DocumentItem.type := file_type file;
         DocumentItem.content :=
           match file_result file with
           | Some text => substring 0 3000 text
           | None => EmptyString
           end |}) newFiles in
  setDocumentsWith (fun prev => (prev ++ processedFiles)%list).

(** [docs.filter((_, i) => i !== index)]. *)
Fixpoint removeAt {A : Type} (index : nat) (docs : list A) : list A :=
  match docs, index with
  | [], _ => []
  | _ :: rest, O => rest
  | d :: rest, S i => d :: removeAt i rest
  end.

Definition removeDocument (index : nat) : Handler :=
  setDocumentsWith (removeAt index).

(** ** The completion client (lines 209-371) *)

(** The [return] statement, or end of function, by which an invocation of
    [sendMessage] finishes. *)
Inductive Exit :=
| ExitAlreadySent    (* line 210 *)
| ExitInvalid        (* lines 214, 221, 226 and 233 *)
| ExitResponseOk     (* line 303 *)
| ExitApiError       (* line 337 *)
| ExitNetworkError   (* line 360 *)
| ExitAfterLoop.     (* line 371, falling out of the [while] *)

(** One pass through the body of the [while]: either control comes back to
    the loop test with a new [currentTry], or the function returns. *)
Inductive Step :=
| Next (currentTry : Z) (r : Run)
| Return (e : Exit) (r : Run).

Fixpoint fetches (t : list Event) : nat :=
  match t with
  | [] => O
  | Fetch _ _ :: t' => S (fetches t')
  | _ :: t' => fetches t'
  end.

Fixpoint waits (t : list Event) : list Z :=
  match t with
  | [] => []
  | Wait ms :: t' => ms :: waits t'
  | _ :: t' => waits t'
  end.

Definition truthy_opt (m : option string) : bool :=
  match m with
  | Some s => Js.truthy s
  | None => false
  end.

Definition textOf (m : option string) : string :=
  match m with
  | Some s => s
  | None => EmptyString
  end.

Definition retryingIn (delay currentTry : Z) : string :=
  "Retrying in " ++ Js.string_of_Z (delay / 1000) ++ "s... (Attempt "
    ++ Js.string_of_Z (currentTry + 1) ++ "/" ++ Js.string_of_Z MAX_RETRIES
    ++ ")".

(** Lines 310-316. *)
Definition retryableError (response : Response) (errorMessage : option string)
    (delay currentTry : Z) : string :=
  "API request failed (status " ++ Js.string_of_Z (status response)
    ++ (if truthy_opt errorMessage
        then ": " ++ textOf errorMessage
        else EmptyString)
    ++ "). " ++ retryingIn delay currentTry.

(** Lines 327-333. *)
Definition fatalError (response : Response) (errorMessage : option string)
    (currentTry : Z) : string :=
  "API error: " ++ Js.string_of_Z (status response) ++ " - "
    ++ (if truthy_opt errorMessage
        then textOf errorMessage
        else "Unknown error")
    ++ ". "
    ++ (if currentTry >=? MAX_RETRIES
        then "Max retries reached." else "Non-retryable error.").

(** Lines 343-347 and 354-356. *)
Definition networkRetryError (err : string) (delay currentTry : Z) : string :=
  "Network error: " ++ err ++ ". " ++ retryingIn delay currentTry.

Definition networkFinalError (err : string) : string :=
  "Network error: " ++ err ++ ". Max retries reached.".

Definition afterLoopError : string :=
  "Max retries reached. Failed to get a response from the assistant.".

(** The [try] block (lines 272-338) once [fetch] has resolved: [inl] when
    it completes, [inr err] when it throws.  Every throw happens before the
    block has called a setter. *)
Definition tryBlock (c : State) (clk : Clock) (response : Response)
    (currentTry : Z) (r : Run) : Step + string :=
  if ok response then
    match body response with
    | Unparseable err => inr err
    | JNull => inr (Js.null_read_error "choices")
    | JData assistantMessage _ =>
        inl (Return ExitResponseOk
          (((match assistantMessage with
             | Some m => setChatHistoryWith (fun prev => (prev ++ [m])%list)
             | None => setError (Some "No response from assistant.")
             end) ;;
            setIsLoading false ;;
            setIsRetrying false ;;
            saveCurrentChat c clk) r))
    end
  else if ((status response =? 429) || (status response >=? 500))
          && (currentTry <? MAX_RETRIES) then
    match body response with
    | JNull => inr (Js.null_read_error "error")
    | Unparseable _ | JData _ _ =>
        let errorMessage :=
          match body response with
          | JData _ m => m
          | _ => None   (* [.catch(() => ({}))] *)
          end in
        let delay := INITIAL_BACKOFF_MS * 2 ^ currentTry in
        inl (Next (currentTry + 1)
          ((setError (Some (retryableError response errorMessage delay
                              currentTry)) ;;
            setIsRetrying true ;;
            emit (Wait delay)) r))
    end
  else
    match body response with
    | JNull => inr (Js.null_read_error "error")
    | Unparseable _ | JData _ _ =>
        let errorMessage :=
          match body response with
          | JData _ m => m
          | _ => Some "Failed to parse error response."
          end in
        inl (Return ExitApiError
          ((setError (Some (fatalError response errorMessage currentTry)) ;;
            setIsLoading false ;;
            setIsRetrying false) r))
    end.

(** The [catch] block (lines 339-362). *)
Definition catchBlock (err : string) (currentTry : Z) (r : Run) : Step :=
  if currentTry <? MAX_RETRIES then
    let delay := INITIAL_BACKOFF_MS * 2 ^ currentTry in
    Next (currentTry + 1)
      ((setError (Some (networkRetryError err delay currentTry)) ;;
        setIsRetrying true ;;
        emit (Wait delay)) r)
  else
    Return ExitNetworkError
      ((setError (Some (networkFinalError err)) ;;
        setIsLoading false ;;
        setIsRetrying false) r).

(** The body of the [while] (lines 271-362). *)
Definition attempt (c : State) (net : Network) (clk : Clock)
    (apiMessages : list ChatMessage.t) (currentTry : Z) (r : Run) : Step :=
  let outcome := net (fetches (trace r)) in
  let r := emit (Fetch (apiKey c) apiMessages) r in
  match outcome with
  | Rejected err => catchBlock err currentTry r
  | Resolved response =>
      match tryBlock c clk response currentTry r with
      | inl step => step
      | inr err => catchBlock err currentTry r
      end
  end.

(** The [while] loop (lines 270-363) followed by lines 364-370.  [fuel]
    bounds the number of passes; [None] means it ran out. *)
Fixpoint retryLoop (fuel : nat) (c : State) (net : Network) (clk : Clock)
    (apiMessages : list ChatMessage.t) (currentTry : Z) (r : Run)
    : option (Exit * Run) :=
  match fuel with
  | O => None
  | S fuel' =>
      if currentTry <=? MAX_RETRIES then
        match attempt c net clk apiMessages currentTry r with
        | Next currentTry' r' =>
            retryLoop fuel' c net clk apiMessages currentTry' r'
        | Return e r' => Some (e, r')
        end
      else
        Some (ExitAfterLoop,
              ((setIsLoading false ;;
                setIsRetrying false ;;
                (if currentTry >? MAX_RETRIES
                 then setError (Some afterLoopError) else skip)) r))
  end.

(** Lines 236-247. *)
Definition userMessage (c : State) : ChatMessage.t :=
  {| ChatMessage.role := user; ChatMessage.content := message c |}.

Definition context (c : State) : string :=
  Js.join (Js.nl ++ Js.nl) (map DocumentItem.content (documents c)).

Definition contextMessage (c : State) : option ChatMessage.t :=
  if Js.truthy (context c)
  then Some {| ChatMessage.role := system;
               ChatMessage.content := "Context:" ++ Js.nl ++ context c |}
  else None.

Definition apiMessages (c : State) : list ChatMessage.t :=
  ((chatHistory c
      ++ match contextMessage c with Some m => [m] | None => [] end)
     ++ [userMessage c])%list.

(** Lines 249-254: the setters called before the first attempt. *)
Definition beginRequest (c : State) : Handler :=
  setChatHistoryWith (fun prev => (prev ++ [userMessage c])%list) ;;
  setMessage EmptyString ;;
  setIsLoading true ;;
  setError None ;;
  setHasSentMessage true ;;
  setIsRetrying false.

Section WithTrim.

(** [String.prototype.trim]. *)
Variable trim : string -> string.

(** The five guards of lines 210-234. *)
Definition passesPreconditions (c : State) : bool :=
  negb (hasSentMessage c)
  && Js.truthy (trim (message c))
  && negb (Z.of_nat (List.length (documents c)) =? 0)
  && Js.truthy (trim (apiKey c))
  && isOnline c.

Definition failValidation (msg : string) (ms : Z) (r : Run)
    : option (Exit * Run) :=
  Some (ExitInvalid, (setError (Some msg) ;; emit (Timer ms)) r).

Definition sendMessage (fuel : nat) (c : State) (net : Network)
    (clk : Clock) (r : Run) : option (Exit * Run) :=
  if hasSentMessage c then Some (ExitAlreadySent, r)
  else if negb (Js.truthy (trim (message c))) then
    failValidation "Please enter a message to send." 3000 r
  else if Z.of_nat (List.length (documents c)) =? 0 then
    failValidation
      "Please upload a document or input text before sending a message."
      3000 r
  else if negb (Js.truthy (trim (apiKey c))) then
    failValidation "Please enter an API key first" 3000 r
  else if negb (isOnline c) then
    failValidation
      "No internet connection. Please check your connection and try again."
      5000 r
  else
    retryLoop fuel c net clk (apiMessages c) 0 (beginRequest c r).

(** Lines 192-203; [timeLabel] is [new Date().toLocaleTimeString()]. *)
Definition handleManualTextSubmit (c : State) (timeLabel : string)
    : Handler :=
  if Js.truthy (trim (manualText c)) then
    setDocumentsWith (fun prev => app prev
      [{| DocumentItem.name := "Manual text (" ++ timeLabel ++ ")";
          DocumentItem.type := "text/plain";
          DocumentItem.content := substring 0 3000 (manualText c) |}]) ;;
    setManualText EmptyString ;;
    setShowTextInput false
  else skip.

End WithTrim.


(** ** Vocabulary of the statements *)

(** The trace of [k] failed attempts numbered [n], [n+1], ...: each is a
    call of [fetch] followed by the backoff wait. *)
Fixpoint schedule (bearer : string) (msgs : list ChatMessage.t) (n : Z)
    (k : nat) : list Event :=
  match k with
  | O => []
  | S k' =>
      Fetch bearer msgs :: Wait (INITIAL_BACKOFF_MS * 2 ^ n)
        :: schedule bearer msgs (n + 1) k'
  end.

Definition has_suffix (suffix s : string) : Prop :=
  exists prefix, s = prefix ++ suffix.

(** A failure that the client would retry if attempts remained: a thrown
    transport error, or a response with status 429 or 5xx. *)
Definition retryableShaped (outcome : FetchResult) : bool :=
  match outcome with
  | Rejected _ => true
  | Resolved response =>
      (status response =? 429)
      || ((500 <=? status response) && (status response <=? 599))
  end.

Definition isNext (s : Step) : Prop :=
  match s with
  | Next _ _ => True
  | Return _ _ => False
  end.

(** Number of stored conversations whose id is [x]. *)
Definition countId (x : string) (chats : list SavedChat.t) : nat :=
  List.length (filter (fun chat => (SavedChat.id chat =? x)%string) chats).

(** Saving again and again, each time from the render that follows the
    previous save; the clock readings are arbitrary. *)
Fixpoint saveRepeatedly (clks : list Clock) (s : State) : State :=
  match clks with
  | [] => s
  | clk :: rest => saveRepeatedly rest (st (saveCurrentChat s clk (start s)))
  end.

(** The message lists sent to the endpoint, one per call of [fetch]. *)
Fixpoint outbound (t : list Event) : list (list ChatMessage.t) :=
  match t with
  | [] => []
  | Fetch _ msgs :: t' => msgs :: outbound t'
  | _ :: t' => outbound t'
  end.

(** The outbound list as the specification words it: the context message
    carries the joined document contents, and is there when some document
    has non-empty content. *)
Definition specApiMessages (c : State) : list ChatMessage.t :=
  (chatHistory c
     ++ (if existsb (fun d => Js.truthy (DocumentItem.content d))
                    (documents c)
         then [{| ChatMessage.role := system;
                  ChatMessage.content :=
                    Js.join (Js.nl ++ Js.nl)
                      (map DocumentItem.content (documents c)) |}]
         else [])
     ++ [{| ChatMessage.role := user; ChatMessage.content := message c |}]
  )%list.

(** The events a user, the browser or a timer can deliver to the mounted
    component, each with the inputs its handler reads from outside. *)
Inductive Action :=
| ASendMessage (net : Network) (clk : Clock)
| ACreateNewChat (clk : Clock)
| ASaveCurrentChat (clk : Clock)
| ALoadChat (chatId : string) (clk : Clock)
| ADeleteChat (chatId : string) (clk : Clock)
| AUpdateChatTitle (value : string)
| AApiKeyChange (value : string)
| AMessageChange (value : string)
| AFileUpload (newFiles : list LoadedFile)
| AManualTextChange (value : string)
| AManualTextSubmit (timeLabel : string)
| AToggleTextInput
| ARemoveDocument (index : nat)
| AOnline (online : bool)
| AErrorTimer.

(** The state React renders after the handler of [a] ran in the render of
    [s]. *)
Definition perform (trim : string -> string) (fuel : nat) (a : Action)
    (s : State) : State :=
  match a with
  | ASendMessage net clk =>
      match sendMessage trim fuel s net clk (start s) with
      | Some (_, r) => st r
      | None => s
      end
  | ACreateNewChat clk => st (createNewChat s clk (start s))
  | ASaveCurrentChat clk => st (saveCurrentChat s clk (start s))
  | ALoadChat chatId clk => st (loadChat s clk chatId (start s))
  | ADeleteChat chatId clk => st (deleteChat s clk chatId (start s))
  | AUpdateChatTitle value => st (updateChatTitle value (start s))
  | AApiKeyChange value => st (handleApiKeyChange value (start s))
  | AMessageChange value => st (handleMessageChange value (start s))
  | AFileUpload newFiles => st (handleFileUpload newFiles (start s))
  | AManualTextChange value => st (setManualText value (start s))
  | AManualTextSubmit timeLabel =>
      st (handleManualTextSubmit trim s timeLabel (start s))
  | AToggleTextInput => st (setShowTextInputWith negb (start s))
  | ARemoveDocument index => st (removeDocument index (start s))
  | AOnline online => st (setIsOnline online (start s))
  | AErrorTimer => st (setError None (start s))
  end.


Fixpoint performAll (trim : string -> string) (fuel : nat)
    (acts : list Action) (s : State) : State :=
  match acts with
  | [] => s
  | a :: rest => performAll trim fuel rest (perform trim fuel a s)
  end.


(** Inputs on which the statements are exercised. *)
Module Sample.

(** Trimming of blanks at both ends, enough for the sample inputs. *)
Fixpoint trimStart (s : string) : string :=
  match s with
  | String " " rest => trimStart rest
  | _ => s
  end.

Fixpoint rev_string (s : string) : string :=
  match s with
  | EmptyString => EmptyString
  | String ch rest => rev_string rest ++ String ch EmptyString
  end.

Definition trim (s : string) : string :=
  rev_string (trimStart (rev_string (trimStart s))).

Definition doc (text : string) : DocumentItem.t :=
  {| DocumentItem.name := "notes.txt"; DocumentItem.type := "text/plain";
     DocumentItem.content := text |}.

Definition question : ChatMessage.t :=
  {| ChatMessage.role := user; ChatMessage.content := "What is X?" |}.

Definition answer : ChatMessage.t :=
  {| ChatMessage.role := assistant; ChatMessage.content := "X is Y." |}.

(** A new chat ready to send. *)
Definition ready : State :=
  {| apiKey := "sk-test"; message := "What is X?"; chatHistory := [];
     savedChats := []; currentChatId := "new";
     currentChatTitle := "New Chat"; isLoading := false; error := None;
     documents := [doc "X is Y."]; showTextInput := false;
     manualText := EmptyString; hasSentMessage := false; isOnline := true;
     isRetrying := false |}.

(** The same chat after its exchange, not saved yet. *)
Definition answered : State :=
  {| apiKey := "sk-test"; message := EmptyString;
     chatHistory := [question; answer];
     savedChats := []; currentChatId := "new";
     currentChatTitle := "New Chat"; isLoading := false; error := None;
     documents := [doc "X is Y."]; showTextInput := false;
     manualText := EmptyString; hasSentMessage := true; isOnline := true;
     isRetrying := false |}.

Definition stored : SavedChat.t :=
  {| SavedChat.id := "1700000000000"; SavedChat.title := "New Chat";
     SavedChat.messages := [question; answer];
     SavedChat.documents := [doc "X is Y."];
     SavedChat.timestamp := "2023-11-14T22:13:20.000Z" |}.

(** The stored chat, loaded and active. *)
Definition active : State :=
  {| apiKey := "sk-test"; message := EmptyString;
     chatHistory := [question; answer];
     savedChats := [stored]; currentChatId := "1700000000000";
     currentChatTitle := "New Chat"; isLoading := false; error := None;
     documents := [doc "X is Y."]; showTextInput := false;
     manualText := EmptyString; hasSentMessage := true; isOnline := true;
     isRetrying := false |}.

(** A new chat with two empty files attached. *)
Definition emptyFiles : State :=
  {| apiKey := "sk-test"; message := "What is X?"; chatHistory := [];
     savedChats := []; currentChatId := "new";
     currentChatTitle := "New Chat"; isLoading := false; error := None;
     documents := [doc EmptyString; doc EmptyString]; showTextInput := false;
     manualText := EmptyString; hasSentMessage := false; isOnline := true;
     isRetrying := false |}.

Definition clk : Clock :=
  {| now := 1700000360000; iso := "2023-11-14T22:19:20.000Z" |}.

Definition always (outcome : FetchResult) : Network := fun _ => outcome.

Definition http (code : Z) : FetchResult :=
  Resolved {| status := code; body := JData None None |}.

End Sample.

(** ** Vocabulary of the further properties *)

(** An outcome of [fetch] after which the loop goes round again while
    attempts remain: [fetch] threw; the response is 2xx and reading its
    body threw; the response is not 2xx and its body is [null], or its
    status is 429 or at least 500. *)
Definition transient (outcome : FetchResult) : bool :=
  match outcome with
  | Rejected _ => true
  | Resolved response =>
      if ok response then
        match body response with
        | JData _ _ => false
        | Unparseable _ | JNull => true
        end
      else
        match body response with
        | JNull => true
        | Unparseable _ | JData _ _ =>
            (status response =? 429) || (status response >=? 500)
        end
  end.


(** Two states that differ at most in [error] and [isRetrying]. *)
Record SameButNotice (s s' : State) : Prop := {
  sbn_apiKey : apiKey s' = apiKey s;
  sbn_message : message s' = message s;
  sbn_chatHistory : chatHistory s' = chatHistory s;
  sbn_savedChats : savedChats s' = savedChats s;
  sbn_currentChatId : currentChatId s' = currentChatId s;
  sbn_currentChatTitle : currentChatTitle s' = currentChatTitle s;
  sbn_isLoading : isLoading s' = isLoading s;
  sbn_documents : documents s' = documents s;
  sbn_showTextInput : showTextInput s' = showTextInput s;
  sbn_manualText : manualText s' = manualText s;
  sbn_hasSentMessage : hasSentMessage s' = hasSentMessage s;
  sbn_isOnline : isOnline s' = isOnline s
}.

(** The sent flag is set exactly when the transcript is non-empty. *)
Definition flagMatchesTranscript (s : State) : Prop :=
  hasSentMessage s = (0 <? Z.of_nat (List.length (chatHistory s))).

(** The active session is unsaved, or its id is that of a stored chat. *)
Definition activeIdStored (s : State) : Prop :=
  currentChatId s = "new"
  \/ In (currentChatId s) (map SavedChat.id (savedChats s)).

(** No document, attached or stored, is longer than 3000 characters. *)
Definition docBounded (d : DocumentItem.t) : Prop :=
  (String.length (DocumentItem.content d) <= 3000)%nat.

Definition docsBounded (s : State) : Prop :=
  Forall docBounded (documents s)
  /\ Forall (fun chat => Forall docBounded (SavedChat.documents chat))
            (savedChats s).

(** The id a save at clock [clk] may mint is not in use. *)
Definition clockFresh (clk : Clock) (s : State) : Prop :=
  ~ In (Js.string_of_Z (now clk)) (map SavedChat.id (savedChats s)).

Definition actionClockFresh (a : Action) (s : State) : Prop :=
  match a with
  | ASendMessage _ clk | ACreateNewChat clk | ASaveCurrentChat clk
  | ALoadChat _ clk | ADeleteChat _ clk => clockFresh clk s
  | _ => True
  end.

(** [docs.filter((_, i) => i !== index)], with the running index [i]. *)
Fixpoint filterIndexFrom {A : Type} (keep : nat -> bool) (i : nat)
    (docs : list A) : list A :=
  match docs with
  | [] => []
  | d :: rest =>
      if keep i then d :: filterIndexFrom keep (S i) rest
      else filterIndexFrom keep (S i) rest
  end.

(** What [saveCurrentChat], called in the render of [c], makes of the
    stored list and of the current id. *)
Definition savedAfterSave (c : State) (clk : Clock)
    (prevChats : list SavedChat.t) : list SavedChat.t :=
  if 0 <? Z.of_nat (List.length (chatHistory c)) then
    chatToSave c clk
      :: (if negb (currentChatId c =? "new")%string
          then filter (fun chat =>
                 negb (SavedChat.id chat =? currentChatId c)%string)
                 prevChats
          else prevChats)
  else prevChats.

Definition idAfterSave (c : State) (clk : Clock) (current : string)
    : string :=
  if (0 <? Z.of_nat (List.length (chatHistory c)))
     && (currentChatId c =? "new")%string
  then Js.string_of_Z (now clk) else current.

(** The fields that no pass through the retry loop writes. *)
Record Untouched (s s' : State) : Prop := {
  same_apiKey : apiKey s' = apiKey s;
  same_message : message s' = message s;
  same_currentChatTitle : currentChatTitle s' = currentChatTitle s;
  same_documents : documents s' = documents s;
  same_showTextInput : showTextInput s' = showTextInput s;
  same_manualText : manualText s' = manualText s;
  same_hasSentMessage : hasSentMessage s' = hasSentMessage s;
  same_isOnline : isOnline s' = isOnline s
}.

(** Further inputs on which the statements are exercised. *)
Module Scenario.

(** The chat of [Sample.ready] while the browser is offline. *)
Definition offline : State :=
  {| apiKey := "sk-test"; message := "What is X?"; chatHistory := [];
     savedChats := []; currentChatId := "new";
     currentChatTitle := "New Chat"; isLoading := false; error := None;
     documents := [Sample.doc "X is Y."]; showTextInput := false;
     manualText := EmptyString; hasSentMessage := false; isOnline := false;
     isRetrying := false |}.

(** The active chat of [Sample.active] with its title erased and a second
    conversation in the store. *)
Definition other : SavedChat.t :=
  {| SavedChat.id := "1690000000000"; SavedChat.title := "Earlier";
     SavedChat.messages := [Sample.question];
     SavedChat.documents := [];
     SavedChat.timestamp := "2023-07-22T04:26:40.000Z" |}.

Definition untitled : State :=
  {| apiKey := "sk-test"; message := EmptyString;
     chatHistory := [Sample.question; Sample.answer];
     savedChats := [Sample.stored; other];
     currentChatId := "1700000000000";
     currentChatTitle := EmptyString; isLoading := false; error := None;
     documents := [Sample.doc "X is Y."]; showTextInput := false;
     manualText := EmptyString; hasSentMessage := true; isOnline := true;
     isRetrying := false |}.

Definition answers (m : ChatMessage.t) : FetchResult :=
  Resolved {| status := 200; body := JData (Some m) None |}.

(** Transient failures of every kind, then an outcome of one's choice. *)
Definition failing (last : FetchResult) : Network :=
  fun k =>
    match k with
    | 0%nat => Rejected "Failed to fetch"
    | 1%nat => Sample.http 503
    | 2%nat => Resolved {| status := 200;
                           body := Unparseable "Unexpected end of JSON input" |}
    | 3%nat => Resolved {| status := 400; body := JNull |}
    | 4%nat => Sample.http 429
    | _ => last
    end.

End Scenario.

(** The backoff delays as the specification lists them for retries 0 to
    5: 1 s, 2 s, 4 s, 8 s, 16 s and 32 s. *)
Definition specBackoffDelays : list Z :=
  map (fun n => 1000 * 2 ^ Z.of_nat n) (seq 0 6).

(** * Properties *)

(** ** Traces *)

Lemma fetches_app (a b : list Event) :
  fetches (a ++ b) = (fetches a + fetches b)%nat.
Proof.
  induction a as [|e a IH]; [reflexivity|].
  destruct e; cbn; rewrite ?IH; reflexivity.
Qed.

Lemma waits_app (a b : list Event) : waits (a ++ b) = (waits a ++ waits b)%list.
Proof.
  induction a as [|e a IH]; [reflexivity|].
  destruct e; cbn; rewrite ?IH; reflexivity.
Qed.

Lemma fetches_schedule bearer msgs n k :
  fetches (schedule bearer msgs n k) = k.
Proof.
  revert n; induction k as [|k IH]; intros n; cbn; [|rewrite IH]; reflexivity.
Qed.

Lemma waits_schedule_nth bearer msgs k :
  forall n i delay,
    nth_error (waits (schedule bearer msgs n k)) i = Some delay ->
    delay = INITIAL_BACKOFF_MS * 2 ^ (n + Z.of_nat i).
Proof.
  induction k as [|k IH]; intros n i delay H.
  - destruct i; discriminate.
  - destruct i as [|i]; cbn in H.
    + injection H as <-. now rewrite Z.add_0_r.
    + apply IH in H. subst delay. f_equal. f_equal. lia.
Qed.

(** ** Strings *)

Lemma append_assoc (a b c : string) : (a ++ b) ++ c = a ++ (b ++ c).
Proof. induction a as [|ch a IH]; cbn; [|rewrite IH]; reflexivity. Qed.

Lemma has_suffix_app (a suffix : string) : has_suffix suffix (a ++ suffix).
Proof. now exists a. Qed.

Lemma has_suffix_prepend (a s suffix : string) :
  has_suffix suffix s -> has_suffix suffix (a ++ s).
Proof.
  intros [p ->]. exists (a ++ p). now rewrite append_assoc.
Qed.

(** ** One pass through the loop body *)

Ltac conjs := repeat match goal with |- _ /\ _ => split end.

(** What a pass may do to the run, whichever branch it takes. *)
Record PassFrame (r r' : Run) : Prop := {
  frame_sent : hasSentMessage (st r') = hasSentMessage (st r);
  frame_error :
    error (st r') <> Some afterLoopError \/ error (st r') = error (st r)
}.

Lemma saveCurrentChat_trace c clk r :
  trace (saveCurrentChat c clk r) = trace r.
Proof.
  unfold saveCurrentChat.
  destruct (0 <? _); [|reflexivity].
  destruct (currentChatId c =? "new")%string; reflexivity.
Qed.

Lemma saveCurrentChat_keeps c clk r :
  let r' := saveCurrentChat c clk r in
  hasSentMessage (st r') = hasSentMessage (st r)
  /\ error (st r') = error (st r)
  /\ isLoading (st r') = isLoading (st r)
  /\ isRetrying (st r') = isRetrying (st r)
  /\ chatHistory (st r') = chatHistory (st r)
  /\ currentChatTitle (st r') = currentChatTitle (st r)
  /\ documents (st r') = documents (st r).
Proof.
  unfold saveCurrentChat.
  destruct (0 <? _); [|cbn; tauto].
  destruct (currentChatId c =? "new")%string; cbn; tauto.
Qed.

Lemma catchBlock_spec err n r :
  match catchBlock err n r with
  | Next n' r' =>
      n < MAX_RETRIES /\ n' = n + 1
      /\ trace r' = (trace r ++ [Wait (INITIAL_BACKOFF_MS * 2 ^ n)])%list
      /\ PassFrame r r'
  | Return e r' =>
      MAX_RETRIES <= n /\ e = ExitNetworkError /\ trace r' = trace r
      /\ isLoading (st r') = false /\ isRetrying (st r') = false
      /\ error (st r') = Some (networkFinalError err)
      /\ PassFrame r r'
  end.
Proof.
  unfold catchBlock.
  destruct (n <? MAX_RETRIES) eqn:E.
  - apply Z.ltb_lt in E. repeat split; trivial.
    left. cbn. discriminate.
  - apply Z.ltb_ge in E. repeat split; trivial.
    left. cbn. discriminate.
Qed.

Lemma tryBlock_spec c clk response n r :
  match tryBlock c clk response n r with
  | inl (Next n' r') =>
      n < MAX_RETRIES /\ n' = n + 1
      /\ trace r' = (trace r ++ [Wait (INITIAL_BACKOFF_MS * 2 ^ n)])%list
      /\ PassFrame r r'
  | inl (Return e r') =>
      (e = ExitResponseOk \/ e = ExitApiError) /\ trace r' = trace r
      /\ isLoading (st r') = false /\ isRetrying (st r') = false
      /\ PassFrame r r'
  | inr _ => True
  end.
Proof.
  unfold tryBlock.
  destruct (ok response).
  - destruct (body response) as [err| |m em]; trivial.
    pose proof (saveCurrentChat_keeps c clk) as K.
    unfold seq_handler. cbn zeta in K.
    split; [now left|].
    rewrite saveCurrentChat_trace.
    match goal with
    | |- context [saveCurrentChat c clk ?x] =>
        destruct (K x) as (K1 & K2 & K3 & K4 & _)
    end.
    rewrite K3, K4.
    split; [destruct m; reflexivity|].
    split; [destruct m; reflexivity|].
    split; [destruct m; reflexivity|].
    split.
    + rewrite K1. destruct m; reflexivity.
    + rewrite K2. destruct m; cbn; [now right|left; discriminate].
  - destruct (_ && _) eqn:E.
    + apply andb_prop in E as [_ E]. apply Z.ltb_lt in E.
      destruct (body response) as [err| |m em]; trivial;
        (repeat split; trivial; left; cbn; discriminate).
    + destruct (body response) as [err| |m em]; trivial;
        (split; [now right|]; repeat split; trivial; left; cbn; discriminate).
Qed.

Lemma attempt_spec c net clk msgs n r :
  match attempt c net clk msgs n r with
  | Next n' r' =>
      n < MAX_RETRIES /\ n' = n + 1
      /\ trace r'
         = (trace r ++ [Fetch (apiKey c) msgs;
                        Wait (INITIAL_BACKOFF_MS * 2 ^ n)])%list
      /\ PassFrame r r'
  | Return e r' =>
      (e = ExitResponseOk \/ e = ExitApiError \/ e = ExitNetworkError)
      /\ trace r' = (trace r ++ [Fetch (apiKey c) msgs])%list
      /\ isLoading (st r') = false /\ isRetrying (st r') = false
      /\ PassFrame r r'
  end.
Proof.
  unfold attempt.
  set (r1 := emit (Fetch (apiKey c) msgs) r).
  assert (T1 : trace r1 = (trace r ++ [Fetch (apiKey c) msgs])%list)
    by reflexivity.
  assert (F : forall r', PassFrame r1 r' -> PassFrame r r')
    by (intros r' [? ?]; split; assumption).
  assert (C : forall err,
    match catchBlock err n r1 with
    | Next n' r' =>
        n < MAX_RETRIES /\ n' = n + 1
        /\ trace r'
           = (trace r ++ [Fetch (apiKey c) msgs;
                          Wait (INITIAL_BACKOFF_MS * 2 ^ n)])%list
        /\ PassFrame r r'
    | Return e r' =>
        (e = ExitResponseOk \/ e = ExitApiError \/ e = ExitNetworkError)
        /\ trace r' = (trace r ++ [Fetch (apiKey c) msgs])%list
        /\ isLoading (st r') = false /\ isRetrying (st r') = false
        /\ PassFrame r r'
    end).
  { intros err. pose proof (catchBlock_spec err n r1) as H.
    destruct (catchBlock err n r1) as [n' r'|e r'].
    - destruct H as (H1 & H2 & H3 & H4). conjs; auto.
      rewrite H3, T1, <- app_assoc. reflexivity.
    - destruct H as (_ & H2 & H3 & H4 & H5 & _ & H7).
      conjs; auto. }
  destruct (net (fetches (trace r))) as [err|response]; [apply C|].
  pose proof (tryBlock_spec c clk response n r1) as H.
  destruct (tryBlock c clk response n r1) as [[n' r'|e r']|err]; [| |apply C].
  - destruct H as (H1 & H2 & H3 & H4). conjs; auto.
    rewrite H3, T1, <- app_assoc. reflexivity.
  - destruct H as (H1 & H2 & H3 & H4 & H5).
    conjs; auto. tauto.
Qed.

(** ** The whole loop *)

Section Loop.

Variables (c : State) (net : Network) (clk : Clock)
          (msgs : list ChatMessage.t).

(** From counter [n], the loop makes [k] failed attempts, each followed
    by its wait, and returns from inside attempt [n + k]. *)
Lemma retryLoop_spec (fuel : nat) :
  forall n r,
    0 <= n <= MAX_RETRIES ->
    (Z.to_nat (MAX_RETRIES - n) < fuel)%nat ->
    exists k e r_last r',
      retryLoop fuel c net clk msgs n r = Some (e, r')
      /\ n + Z.of_nat k <= MAX_RETRIES
      /\ trace r_last = (trace r ++ schedule (apiKey c) msgs n k)%list
      /\ attempt c net clk msgs (n + Z.of_nat k) r_last = Return e r'
      /\ hasSentMessage (st r_last) = hasSentMessage (st r)
      /\ (error (st r) <> Some afterLoopError ->
          error (st r_last) <> Some afterLoopError).
Proof.
  induction fuel as [|fuel IH]; intros n r Hn Hfuel; [lia|].
  cbn [retryLoop].
  destruct (n <=? MAX_RETRIES) eqn:E; [|apply Z.leb_gt in E; lia].
  pose proof (attempt_spec c net clk msgs n r) as A.
  destruct (attempt c net clk msgs n r) as [n' r1|e r1] eqn:Ea.
  - destruct A as (A1 & -> & A3 & [A4 A5]).
    destruct (IH (n + 1) r1)
      as (k & e & r_last & r' & L1 & L2 & L3 & L4 & L5 & L6);
      [lia|unfold MAX_RETRIES in *; lia|].
    exists (S k), e, r_last, r'.
    replace (n + Z.of_nat (S k)) with (n + 1 + Z.of_nat k) by lia.
    conjs; auto.
    + rewrite L3, A3, <- app_assoc. reflexivity.
    + congruence.
    + intros H. apply L6. destruct A5 as [A5|A5]; congruence.
  - exists O, e, r, r1.
    rewrite Z.add_0_r, app_nil_r. conjs; auto. lia.
Qed.

End Loop.

(** At the last permitted attempt a retryable-shaped failure ends the
    invocation with a "Max retries reached." error. *)
Lemma attempt_exhausted c net clk msgs r :
  retryableShaped (net (fetches (trace r))) = true ->
  exists e r' msg,
    attempt c net clk msgs MAX_RETRIES r = Return e r'
    /\ (e = ExitApiError \/ e = ExitNetworkError)
    /\ error (st r') = Some msg
    /\ has_suffix "Max retries reached." msg.
Proof.
  intros H. unfold attempt.
  assert (N : forall err r0, exists e r' msg,
    catchBlock err MAX_RETRIES r0 = Return e r'
    /\ (e = ExitApiError \/ e = ExitNetworkError)
    /\ error (st r') = Some msg
    /\ has_suffix "Max retries reached." msg).
  { intros err r0. unfold catchBlock.
    replace (MAX_RETRIES <? MAX_RETRIES) with false by reflexivity.
    eexists _, _, _. split; [reflexivity|]. split; [now right|].
    split; [reflexivity|].
    unfold networkFinalError. apply has_suffix_prepend.
    exists (err ++ ". "). rewrite append_assoc. reflexivity. }
  destruct (net (fetches (trace r))) as [err|response]; [apply N|].
  cbn in H.
  assert (O : ok response = false).
  { unfold ok. apply orb_prop in H as [H|H].
    - apply Z.eqb_eq in H. rewrite H. reflexivity.
    - apply andb_prop in H as [H _]. apply Z.leb_le in H.
      apply andb_false_iff. right. apply Z.leb_gt. lia. }
  unfold tryBlock. rewrite O.
  replace (MAX_RETRIES <? MAX_RETRIES) with false by reflexivity.
  rewrite andb_false_r.
  destruct (body response) as [err| |m em]; [|apply N|].
  - eexists _, _, _. split; [reflexivity|]. split; [now left|].
    split; [reflexivity|].
    unfold fatalError. do 4 apply has_suffix_prepend.
    exists ". ". reflexivity.
  - eexists _, _, _. split; [reflexivity|]. split; [now left|].
    split; [reflexivity|].
    unfold fatalError. do 4 apply has_suffix_prepend.
    exists ". ". reflexivity.
Qed.

(** ** [sendMessage] as a whole *)

Lemma sendMessage_passes trim fuel c net clk r :
  passesPreconditions trim c = true ->
  sendMessage trim fuel c net clk r
  = retryLoop fuel c net clk (apiMessages c) 0 (beginRequest c r).
Proof.
  unfold passesPreconditions, sendMessage. intros H.
  repeat (apply andb_prop in H as [H ?]).
  apply negb_true_iff in H.
  repeat match goal with
         | E : negb _ = true |- _ => apply negb_true_iff in E
         end.
  repeat match goal with E : _ = _ |- _ => rewrite E; clear E end.
  reflexivity.
Qed.

Lemma sendMessage_already_sent trim fuel c net clk r :
  hasSentMessage c = true ->
  sendMessage trim fuel c net clk r = Some (ExitAlreadySent, r).
Proof. unfold sendMessage. now intros ->. Qed.

(** Every invocation returns, and not by falling out of the loop. *)
Lemma sendMessage_returns trim fuel c net clk r :
  (6 <= fuel)%nat ->
  exists e r',
    sendMessage trim fuel c net clk r = Some (e, r')
    /\ e <> ExitAfterLoop
    /\ (error (st r) <> Some afterLoopError ->
        error (st r') <> Some afterLoopError).
Proof.
  intros Hfuel. unfold sendMessage, failValidation.
  destruct (hasSentMessage c).
  { eexists _, _. split; [reflexivity|]. split; [discriminate|auto]. }
  destruct (negb (Js.truthy (trim (message c)))).
  { eexists _, _. split; [reflexivity|]. split; discriminate. }
  destruct (Z.of_nat (List.length (documents c)) =? 0).
  { eexists _, _. split; [reflexivity|]. split; discriminate. }
  destruct (negb (Js.truthy (trim (apiKey c)))).
  { eexists _, _. split; [reflexivity|]. split; discriminate. }
  destruct (negb (isOnline c)).
  { eexists _, _. split; [reflexivity|]. split; discriminate. }
  destruct (retryLoop_spec c net clk (apiMessages c) fuel 0 (beginRequest c r))
    as (k & e & r_last & r' & L1 & L2 & L3 & L4 & L5 & L6);
    [unfold MAX_RETRIES; lia|unfold MAX_RETRIES; cbn; lia|].
  exists e, r'. split; [exact L1|].
  pose proof (attempt_spec c net clk (apiMessages c) (0 + Z.of_nat k) r_last)
    as A.
  rewrite L4 in A. destruct A as (A1 & _ & _ & _ & [_ A5]).
  split.
  - destruct A1 as [->|[->| ->]]; discriminate.
  - intros _. assert (error (st r_last) <> Some afterLoopError)
      by (apply L6; cbn; discriminate).
    destruct A5 as [A5|A5]; congruence.
Qed.

(** The trace of an invocation that passes the guards. *)
Lemma sendMessage_trace trim fuel c net clk :
  passesPreconditions trim c = true ->
  (6 <= fuel)%nat ->
  exists k e r_last r,
    sendMessage trim fuel c net clk (start c) = Some (e, r)
    /\ (k <= 5)%nat
    /\ trace r_last = schedule (apiKey c) (apiMessages c) 0 k
    /\ attempt c net clk (apiMessages c) (Z.of_nat k) r_last = Return e r
    /\ trace r
       = (schedule (apiKey c) (apiMessages c) 0 k
            ++ [Fetch (apiKey c) (apiMessages c)])%list
    /\ hasSentMessage (st r) = true
    /\ isLoading (st r) = false
    /\ isRetrying (st r) = false.
Proof.
  intros P Hfuel. rewrite (sendMessage_passes _ _ _ _ _ _ P).
  destruct (retryLoop_spec c net clk (apiMessages c) fuel 0
              (beginRequest c (start c)))
    as (k & e & r_last & r' & L1 & L2 & L3 & L4 & L5 & L6);
    [unfold MAX_RETRIES; lia|unfold MAX_RETRIES; cbn; lia|].
  cbn [Z.add] in L4. cbn in L3.
  exists k, e, r_last, r'.
  pose proof (attempt_spec c net clk (apiMessages c) (Z.of_nat k) r_last) as A.
  rewrite L4 in A. destruct A as (_ & A2 & A3 & A4 & [A5 _]).
  conjs; auto.
  - unfold MAX_RETRIES in L2. lia.
  - rewrite A2, L3. reflexivity.
  - rewrite A5, L5. reflexivity.
Qed.

(** ** C1 *)

(** C1.  An invocation of [sendMessage] that passes the five guards calls
    [fetch] at most 6 times; when it makes the 6th call and that call fails
    in a retryable shape (it throws, or answers 429 or 5xx), the invocation
    returns with a "Max retries reached." error, loading and retrying
    cleared, and the 6th call is the last event of the run. *)
Theorem C1_at_most_six_attempts :
  forall trim fuel c net clk,
    passesPreconditions trim c = true ->
    (6 <= fuel)%nat ->
    exists e r,
      sendMessage trim fuel c net clk (start c) = Some (e, r)
      /\ (fetches (trace r) <= 6)%nat
      /\ (fetches (trace r) = 6%nat ->
          retryableShaped (net 5%nat) = true ->
          (e = ExitApiError \/ e = ExitNetworkError)
          /\ (exists msg, error (st r) = Some msg
                          /\ has_suffix "Max retries reached." msg)
          /\ isLoading (st r) = false
          /\ isRetrying (st r) = false
          /\ trace r
             = (schedule (apiKey c) (apiMessages c) 0 5
                  ++ [Fetch (apiKey c) (apiMessages c)])%list).
Proof.
  intros trim fuel c net clk P Hfuel.
  destruct (sendMessage_trace trim fuel c net clk P Hfuel)
    as (k & e & r_last & r & S1 & S2 & S3 & S4 & S5 & S6 & S7 & S8).
  exists e, r. split; [exact S1|].
  assert (F : fetches (trace r) = S k).
  { rewrite S5, fetches_app, fetches_schedule. cbn. lia. }
  split; [lia|].
  intros F6 Hshape. assert (k = 5%nat) by lia. subst k.
  destruct (attempt_exhausted c net clk (apiMessages c) r_last)
    as (e' & r' & msg & X1 & X2 & X3 & X4).
  { rewrite S3, fetches_schedule. exact Hshape. }
  change (Z.of_nat 5) with MAX_RETRIES in S4.
  rewrite S4 in X1. injection X1 as <- <-.
  conjs; auto. exists msg. auto.
Qed.

Lemma C1_witness :
  exists e r,
    sendMessage Sample.trim 6 Sample.ready (Sample.always (Sample.http 503))
      Sample.clk (start Sample.ready) = Some (e, r)
    /\ fetches (trace r) = 6%nat
    /\ e = ExitApiError
    /\ error (st r)
       = Some "API error: 503 - Unknown error. Max retries reached.".
Proof.
  destruct (C1_at_most_six_attempts Sample.trim 6 Sample.ready
              (Sample.always (Sample.http 503)) Sample.clk)
    as (e & r & H & _ & _); [reflexivity|lia|].
  exists e, r. split; [exact H|].
  vm_compute in H. injection H as <- <-.
  repeat split.
Defined.

(** ** Backoff *)

(** Whichever way attempt [n] fails, by an HTTP status or by a thrown
    error, going round the loop again inserts exactly one wait, of
    [1000 * 2^n] milliseconds. *)
Lemma attempt_backoff c net clk msgs n r n' r' :
  attempt c net clk msgs n r = Next n' r' ->
  waits (trace r') = (waits (trace r) ++ [1000 * 2 ^ n])%list.
Proof.
  intros H. pose proof (attempt_spec c net clk msgs n r) as A.
  rewrite H in A. destruct A as (_ & _ & A & _).
  rewrite A, waits_app. reflexivity.
Qed.

Lemma waits_schedule_length bearer msgs k :
  forall n, List.length (waits (schedule bearer msgs n k)) = k.
Proof. induction k as [|k IH]; intros n; cbn; [|rewrite IH]; reflexivity. Qed.

(** An invocation stopped by a guard makes no network call and no wait. *)
Lemma sendMessage_guarded trim fuel c net clk r0 :
  passesPreconditions trim c = false ->
  exists e r,
    sendMessage trim fuel c net clk r0 = Some (e, r)
    /\ (e = ExitAlreadySent \/ e = ExitInvalid)
    /\ waits (trace r) = waits (trace r0)
    /\ fetches (trace r) = fetches (trace r0).
Proof.
  intros P. unfold passesPreconditions in P.
  unfold sendMessage.
  assert (T : forall msg ms,
    waits (trace ((setError (Some msg) ;; emit (Timer ms)) r0))
    = waits (trace r0)
    /\ fetches (trace ((setError (Some msg) ;; emit (Timer ms)) r0))
       = fetches (trace r0)).
  { intros msg ms. cbn. rewrite waits_app, fetches_app. cbn.
    rewrite app_nil_r. split; [reflexivity|lia]. }
  assert (V : forall msg ms, exists e r,
    failValidation msg ms r0 = Some (e, r)
    /\ (e = ExitAlreadySent \/ e = ExitInvalid)
    /\ waits (trace r) = waits (trace r0)
    /\ fetches (trace r) = fetches (trace r0)).
  { intros msg ms. eexists _, _. split; [reflexivity|].
    split; [now right|apply T]. }
  unfold failValidation in V.
  destruct (hasSentMessage c).
  { eexists _, _. split; [reflexivity|]. split; [now left|]. now split. }
  destruct (Js.truthy (trim (message c))); [|apply V].
  destruct (Z.of_nat (List.length (documents c)) =? 0); [apply V|].
  destruct (Js.truthy (trim (apiKey c))); [|apply V].
  destruct (isOnline c); [discriminate|apply V].
Qed.

(** The schedule never reaches a sixth wait: there is no 32 s delay. *)
Lemma at_most_five_waits trim fuel c net clk e r :
  (6 <= fuel)%nat ->
  sendMessage trim fuel c net clk (start c) = Some (e, r) ->
  (List.length (waits (trace r)) <= 5)%nat.
Proof.
  intros Hfuel H.
  destruct (passesPreconditions trim c) eqn:P.
  - destruct (sendMessage_trace trim fuel c net clk P Hfuel)
      as (k & e2 & r_last & r2 & S1 & S2 & _ & _ & S5 & _).
    rewrite H in S1. injection S1 as <- <-.
    rewrite S5, waits_app, app_nil_r, waits_schedule_length. exact S2.
  - destruct (sendMessage_guarded trim fuel c net clk (start c) P)
      as (e2 & r2 & W1 & _ & W2 & _).
    rewrite H in W1. injection W1 as <- <-.
    rewrite W2. cbn. lia.
Qed.

(** ** C9 *)

(** C9.  The code after the [while] loop is never reached: a pass through
    the loop body with the counter at most [MAX_RETRIES] either returns or
    increments the counter to a value that is still at most [MAX_RETRIES],
    so every invocation returns from inside the loop (or before it) and
    the error string of lines 367-369 is never set. *)
Theorem C9_code_after_loop_unreachable :
  forall trim fuel c net clk r,
    (6 <= fuel)%nat ->
    error (st r) <> Some afterLoopError ->
    (forall msgs n r1,
        n <= MAX_RETRIES ->
        match attempt c net clk msgs n r1 with
        | Next n' _ => n' = n + 1 /\ n' <= MAX_RETRIES
        | Return e _ => e <> ExitAfterLoop
        end)
    /\ exists e r',
         sendMessage trim fuel c net clk r = Some (e, r')
         /\ e <> ExitAfterLoop
         /\ error (st r') <> Some afterLoopError.
Proof.
  intros trim fuel c net clk r Hfuel Herr. split.
  - intros msgs n r1 Hn.
    pose proof (attempt_spec c net clk msgs n r1) as A.
    destruct (attempt c net clk msgs n r1) as [n' r'|e r'].
    + destruct A as (A1 & A2 & _). lia.
    + destruct A as ([->|[->| ->]] & _); discriminate.
  - destruct (sendMessage_returns trim fuel c net clk r Hfuel)
      as (e & r' & H1 & H2 & H3).
    exists e, r'. auto.
Qed.

Lemma C9_witness :
  exists r',
    sendMessage Sample.trim 6 Sample.ready
      (Sample.always (Rejected "Failed to fetch")) Sample.clk
      (start Sample.ready) = Some (ExitNetworkError, r')
    /\ error (st r')
       = Some "Network error: Failed to fetch. Max retries reached.".
Proof.
  destruct (C9_code_after_loop_unreachable Sample.trim 6 Sample.ready
              (Sample.always (Rejected "Failed to fetch")) Sample.clk
              (start Sample.ready))
    as (_ & e & r' & H & _); [lia|discriminate|].
  exists r'. vm_compute in H. injection H as <- <-.
  split; reflexivity.
Defined.

(** The embedded loop does contain the path that C9 excludes: entered
    with a counter above [MAX_RETRIES] it falls through and sets the
    error. *)
Example loop_exit_exists :
  option_map (fun x => (fst x, error (st (snd x))))
    (retryLoop 1 Sample.ready (Sample.always (Sample.http 500)) Sample.clk
       [] 6 (start Sample.ready))
  = Some (ExitAfterLoop, Some afterLoopError).
Proof. reflexivity. Qed.

(** ** C3 *)





(** ** C4 *)

(** When reading the error body raises nothing, a response that is not
    [ok] is retried exactly when its status is 429 or at least 500 and
    the counter is below [MAX_RETRIES]. *)
Lemma tryBlock_not_ok c clk response n r :
  ok response = false ->
  body response <> JNull ->
  exists errorMessage,
    tryBlock c clk response n r
    = inl (if ((status response =? 429) || (status response >=? 500))
              && (n <? MAX_RETRIES)
           then Next (n + 1)
                  ((setError (Some (retryableError response errorMessage
                                      (INITIAL_BACKOFF_MS * 2 ^ n) n)) ;;
                    setIsRetrying true ;;
                    emit (Wait (INITIAL_BACKOFF_MS * 2 ^ n))) r)
           else Return ExitApiError
                  ((setError (Some (fatalError response errorMessage n)) ;;
                    setIsLoading false ;;
                    setIsRetrying false) r)).
Proof.
  intros O B. unfold tryBlock. rewrite O.
  destruct (_ && _); destruct (body response) as [err| |m em];
    try congruence; eexists; reflexivity.
Qed.

(** C4, as the code has it.  For a response that is not 2xx and whose
    body is not the JSON literal [null]: the attempt goes round the loop
    again (error recorded, retrying set, a wait of [1000 * 2^n] ms, counter
    incremented) if and only if the status is 429 or at least 500 and the
    counter is below [MAX_RETRIES]; otherwise the invocation returns with
    an "API error" message, loading and retrying cleared, and nothing after
    the call of [fetch]. *)
Theorem C4_retryable_classification :
  forall c net clk msgs n r response,
    net (fetches (trace r)) = Resolved response ->
    ok response = false ->
    body response <> JNull ->
    let retryable :=
      (status response = 429 \/ 500 <= status response) /\ n < MAX_RETRIES in
    (isNext (attempt c net clk msgs n r) <-> retryable)
    /\ (retryable ->
        exists r' msg,
          attempt c net clk msgs n r = Next (n + 1) r'
          /\ error (st r') = Some msg
          /\ isRetrying (st r') = true
          /\ trace r'
             = (trace r ++ [Fetch (apiKey c) msgs; Wait (1000 * 2 ^ n)])%list)
    /\ (~ retryable ->
        exists r' msg,
          attempt c net clk msgs n r = Return ExitApiError r'
          /\ error (st r') = Some msg
          /\ isLoading (st r') = false
          /\ isRetrying (st r') = false
          /\ trace r' = (trace r ++ [Fetch (apiKey c) msgs])%list).
Proof.
  intros c net clk msgs n r response Hnet O B retryable.
  unfold attempt. rewrite Hnet.
  destruct (tryBlock_not_ok c clk response n
              (emit (Fetch (apiKey c) msgs) r) O B) as (em & ->).
  assert (R : ((status response =? 429) || (status response >=? 500))
              && (n <? MAX_RETRIES) = true <-> retryable).
  { unfold retryable.
    rewrite andb_true_iff, orb_true_iff, Z.eqb_eq, Z.geb_le, Z.ltb_lt.
    reflexivity. }
  destruct (_ && _).
  - assert (Hr : retryable) by now apply R.
    split; [cbn; tauto|]. split; [|tauto].
    intros _. eexists _, _. split; [reflexivity|].
    split; [reflexivity|]. split; [reflexivity|].
    cbn. rewrite <- app_assoc. reflexivity.
  - assert (Hr : ~ retryable) by (intros H; apply R in H; discriminate).
    split; [cbn; tauto|]. split; [tauto|].
    intros _. eexists _, _. split; [reflexivity|].
    split; [reflexivity|]. split; [reflexivity|]. split; reflexivity.
Qed.

Lemma C4_witness :
  exists r' msg,
    attempt Sample.ready (Sample.always (Sample.http 404)) Sample.clk
      (apiMessages Sample.ready) 0 (start Sample.ready)
    = Return ExitApiError r'
    /\ error (st r') = Some msg
    /\ msg = "API error: 404 - Unknown error. Non-retryable error.".
Proof.
  destruct (C4_retryable_classification Sample.ready
              (Sample.always (Sample.http 404)) Sample.clk
              (apiMessages Sample.ready) 0 (start Sample.ready)
              {| status := 404; body := JData None None |})
    as (_ & _ & K); [reflexivity|reflexivity|discriminate|].
  destruct K as (r' & msg & K1 & K2 & _).
  { intros [[H|H] _]; cbn in H; lia. }
  exists r', msg. split; [exact K1|]. split; [exact K2|].
  vm_compute in K1. injection K1 as <-.
  cbn in K2. injection K2 as <-. reflexivity.
Defined.

(** C4 as stated fails: a status of 600 is neither 429 nor 5xx, and the
    response is retried all the same, since the code tests
    [response.status >= 500]. *)
Lemma C4_counterexample :
  let response := {| status := 600; body := JData None None |} in
  ok response = false
  /\ ~ (status response = 429 \/ 500 <= status response <= 599)
  /\ exists r',
       attempt Sample.ready (Sample.always (Resolved response)) Sample.clk
         (apiMessages Sample.ready) 0 (start Sample.ready) = Next 1 r'
       /\ waits (trace r') = [1000].
Proof.
  cbn zeta. split; [reflexivity|]. split; [cbn; lia|].
  eexists. split; reflexivity.
Qed.

(** The case left out of C4: an error body that is the JSON literal
    [null] makes [errorData.error] throw inside the [try], and the [catch]
    retries a status that is not retryable. *)
Example null_error_body_is_retried :
  exists r',
    attempt Sample.ready
      (Sample.always (Resolved {| status := 400; body := JNull |}))
      Sample.clk (apiMessages Sample.ready) 0 (start Sample.ready)
    = Next 1 r'
    /\ error (st r')
       = Some ("Network error: Cannot read properties of null "
               ++ "(reading 'error'). Retrying in 1s... (Attempt 1/5)").
Proof. eexists. split; reflexivity. Qed.

(** ** C5 *)

Lemma truthy_append (a b : string) :
  Js.truthy (a ++ b) = Js.truthy a || Js.truthy b.
Proof. destruct a; [reflexivity|reflexivity]. Qed.

Lemma truthy_true_iff (s : string) : Js.truthy s = true <-> s <> EmptyString.
Proof. destruct s; cbn; split; congruence. Qed.

(** A joined list is non-empty when some element is, or when the
    separator occurs in it. *)
Lemma join_truthy (l : list string) :
  Js.truthy (Js.join (Js.nl ++ Js.nl) l) = true
  <-> (exists s, In s l /\ s <> EmptyString) \/ (2 <= List.length l)%nat.
Proof.
  unfold Js.join. destruct l as [|x [|y l]].
  - cbn. split; [discriminate|]. intros [(s & [] & _)|H]; lia.
  - cbn [String.concat]. rewrite truthy_true_iff. split.
    + intros H. left. exists x. split; [now left|exact H].
    + intros [(s & [<-|[]] & H)|H]; [exact H|cbn in H; lia].
  - cbn [String.concat]. rewrite truthy_append, truthy_append.
    cbn. rewrite orb_true_r. split; [|reflexivity].
    intros _. right. lia.
Qed.

Lemma outbound_app (a b : list Event) :
  outbound (a ++ b) = (outbound a ++ outbound b)%list.
Proof.
  induction a as [|e a IH]; [reflexivity|].
  destruct e; cbn; rewrite ?IH; reflexivity.
Qed.

Lemma outbound_schedule bearer msgs k :
  forall n m, In m (outbound (schedule bearer msgs n k)) -> m = msgs.
Proof.
  induction k as [|k IH]; intros n m H; [destruct H|].
  cbn in H. destruct H as [<-|H]; [reflexivity|].
  now apply IH in H.
Qed.

(** C5, as the code has it.  In a send that passes the guards, every call
    of [fetch] (there is at least one) carries the prior transcript, then
    at most one [system] message whose content is ["Context:\n"] followed
    by the document contents joined by a blank line, then the new [user]
    message; the [system] message is there exactly when the joined string
    is non-empty, that is when some document has non-empty content or at
    least two documents are attached. *)
Theorem C5_outbound_messages :
  forall trim fuel c net clk,
    passesPreconditions trim c = true ->
    (6 <= fuel)%nat ->
    let joined :=
      Js.join (Js.nl ++ Js.nl) (map DocumentItem.content (documents c)) in
    let contextPart :=
      if Js.truthy joined
      then [{| ChatMessage.role := system;
               ChatMessage.content := "Context:" ++ Js.nl ++ joined |}]
      else [] in
    exists e r,
      sendMessage trim fuel c net clk (start c) = Some (e, r)
      /\ outbound (trace r) <> []
      /\ (forall msgs,
             In msgs (outbound (trace r)) ->
             msgs
             = (chatHistory c ++ contextPart
                  ++ [{| ChatMessage.role := user;
                         ChatMessage.content := message c |}])%list)
      /\ (contextPart <> [] <->
          (exists d,
              In d (documents c) /\ DocumentItem.content d <> EmptyString)
          \/ (2 <= List.length (documents c))%nat).
Proof.
  intros trim fuel c net clk P Hfuel joined contextPart.
  destruct (sendMessage_trace trim fuel c net clk P Hfuel)
    as (k & e & r_last & r & S1 & _ & _ & _ & S5 & _).
  exists e, r. split; [exact S1|].
  assert (M : apiMessages c
              = (chatHistory c ++ contextPart
                   ++ [{| ChatMessage.role := user;
                          ChatMessage.content := message c |}])%list).
  { unfold apiMessages, contextMessage, contextPart, joined, context,
      userMessage.
    rewrite <- app_assoc. destruct (Js.truthy _); reflexivity. }
  rewrite S5, outbound_app. cbn [outbound].
  split; [|split].
  - intros H. apply app_eq_nil in H as [_ H]. discriminate.
  - intros msgs H. apply in_app_or in H as [H|[<-|[]]]; [|exact M].
    apply outbound_schedule in H. now rewrite H.
  - pose proof (join_truthy (map DocumentItem.content (documents c))) as J.
    fold joined in J. rewrite length_map in J.
    assert (Q : contextPart <> [] <-> Js.truthy joined = true).
    { unfold contextPart. destruct (Js.truthy joined);
        split; congruence. }
    rewrite Q, J. split; (intros [(s & H1 & H2)|H]; [left|now right]).
    + apply in_map_iff in H1 as (d & <- & H1). now exists d.
    + exists (DocumentItem.content s). split; [now apply in_map|exact H2].
Qed.

Lemma C5_witness :
  exists e r,
    sendMessage Sample.trim 6 Sample.ready (Sample.always (Sample.http 200))
      Sample.clk (start Sample.ready) = Some (e, r)
    /\ outbound (trace r)
       = [[{| ChatMessage.role := system;
              ChatMessage.content := "Context:" ++ Js.nl ++ "X is Y." |};
           {| ChatMessage.role := user;
              ChatMessage.content := "What is X?" |}]].
Proof.
  destruct (C5_outbound_messages Sample.trim 6 Sample.ready
              (Sample.always (Sample.http 200)) Sample.clk)
    as (e & r & H & _); [reflexivity|lia|].
  exists e, r. split; [exact H|].
  vm_compute in H. injection H as <- <-. reflexivity.
Defined.

(** C5 as stated fails twice over.  With one document ["X is Y."] the
    context message reads ["Context:\nX is Y."], not the joined contents;
    and with two empty documents a context message is sent although no
    document has content. *)
Lemma C5_counterexample :
  (exists e r,
      passesPreconditions Sample.trim Sample.ready = true
      /\ sendMessage Sample.trim 6 Sample.ready
           (Sample.always (Sample.http 200)) Sample.clk
           (start Sample.ready) = Some (e, r)
      /\ hd_error (outbound (trace r))
         <> Some (specApiMessages Sample.ready))
  /\ (exists e r,
         passesPreconditions Sample.trim Sample.emptyFiles = true
         /\ sendMessage Sample.trim 6 Sample.emptyFiles
              (Sample.always (Sample.http 200)) Sample.clk
              (start Sample.emptyFiles) = Some (e, r)
         /\ existsb (fun d => Js.truthy (DocumentItem.content d))
                    (documents Sample.emptyFiles) = false
         /\ hd_error (outbound (trace r))
            = Some [{| ChatMessage.role := system;
                       ChatMessage.content :=
                         "Context:" ++ Js.nl ++ Js.nl ++ Js.nl |};
                    {| ChatMessage.role := user;
                       ChatMessage.content := "What is X?" |}]).
Proof.
  split.
  - eexists _, _. split; [reflexivity|]. split; [reflexivity|].
    cbn. discriminate.
  - eexists _, _. split; [reflexivity|]. split; [reflexivity|].
    split; reflexivity.
Qed.

(** ** The stored conversations *)

Lemma countId_filter_out x (chats : list SavedChat.t) :
  countId x (filter (fun chat => negb (SavedChat.id chat =? x)%string) chats)
  = O.
Proof.
  unfold countId. induction chats as [|chat chats IH]; [reflexivity|].
  cbn [filter]. destruct (SavedChat.id chat =? x)%string eqn:E; cbn [negb].
  - exact IH.
  - cbn [filter]. rewrite E. exact IH.
Qed.

Lemma countId_cons x chat (chats : list SavedChat.t) :
  countId x (chat :: chats)
  = ((if (SavedChat.id chat =? x)%string then 1 else 0) + countId x chats)%nat.
Proof.
  unfold countId. cbn [filter].
  destruct (SavedChat.id chat =? x)%string; reflexivity.
Qed.

Lemma nonempty_length {A : Type} (l : list A) :
  l <> [] -> (0 <? Z.of_nat (List.length l)) = true.
Proof. destruct l; [congruence|]. intros _. apply Z.ltb_lt. cbn. lia. Qed.

(** Saving a chat that has a real id and a transcript. *)
Lemma saveCurrentChat_real_id c clk r :
  currentChatId c <> "new" ->
  chatHistory c <> [] ->
  let r' := saveCurrentChat c clk r in
  savedChats (st r')
  = chatToSave c clk
      :: filter (fun chat => negb (SavedChat.id chat =? currentChatId c)%string)
                (savedChats (st r))
  /\ SavedChat.id (chatToSave c clk) = currentChatId c
  /\ currentChatId (st r') = currentChatId (st r).
Proof.
  intros Hid Hh. unfold saveCurrentChat, chatToSave.
  rewrite (nonempty_length _ Hh).
  apply String.eqb_neq in Hid. rewrite Hid. cbn. auto.
Qed.

(** ** C6 *)

(** Deleting a chat that is not the active one removes it and leaves the
    session alone. *)
Lemma deleteChat_other c clk chatId :
  currentChatId c <> chatId ->
  let s' := st (deleteChat c clk chatId (start c)) in
  countId chatId (savedChats s') = O
  /\ currentChatId s' = currentChatId c
  /\ chatHistory s' = chatHistory c
  /\ hasSentMessage s' = hasSentMessage c.
Proof.
  intros H. apply String.eqb_neq in H.
  unfold deleteChat, seq_handler. rewrite H. cbn.
  split; [apply countId_filter_out|auto].
Qed.

(** Deleting the active chat resets the session, but the save inside
    [createNewChat] is queued after the removal and stores the chat
    again. *)
Lemma deleteChat_active c clk :
  currentChatId c <> "new" ->
  chatHistory c <> [] ->
  let s' := st (deleteChat c clk (currentChatId c) (start c)) in
  countId (currentChatId c) (savedChats s') = 1%nat
  /\ currentChatId s' = "new"
  /\ currentChatTitle s' = "New Chat"
  /\ chatHistory s' = []
  /\ documents s' = []
  /\ hasSentMessage s' = false.
Proof.
  intros Hid Hh. unfold deleteChat, createNewChat, seq_handler.
  rewrite String.eqb_refl.
  match goal with
  | |- context [saveCurrentChat c clk ?x] =>
      destruct (saveCurrentChat_real_id c clk x Hid Hh) as (S1 & S2 & _);
      set (r1 := saveCurrentChat c clk x) in *
  end.
  cbn zeta in S1. split; [|repeat split].
  change (countId (currentChatId c) (savedChats (st r1)) = 1%nat).
  rewrite S1, countId_cons, S2, String.eqb_refl, countId_filter_out.
  reflexivity.
Qed.

(** C6, at the failing input: the active chat is the one stored
    conversation; after [deleteChat] on its id the session is a fresh
    one, and the store still holds a conversation with that id. *)
Theorem C6_delete_active_chat_resaved :
  let s' := st (deleteChat Sample.active Sample.clk "1700000000000"
                  (start Sample.active)) in
  currentChatId Sample.active = "1700000000000"
  /\ savedChats Sample.active = [Sample.stored]
  /\ map SavedChat.id (savedChats s') = ["1700000000000"]
  /\ map SavedChat.messages (savedChats s')
     = [[Sample.question; Sample.answer]]
  /\ currentChatId s' = "new"
  /\ chatHistory s' = []
  /\ documents s' = []
  /\ hasSentMessage s' = false.
Proof. cbn. repeat split. Qed.

(** ** C7 *)

Lemma saveRepeatedly_real_id clks :
  forall s,
    currentChatId s <> "new" ->
    chatHistory s <> [] ->
    clks <> [] ->
    let s' := saveRepeatedly clks s in
    countId (currentChatId s) (savedChats s') = 1%nat
    /\ currentChatId s' = currentChatId s
    /\ chatHistory s' = chatHistory s.
Proof.
  induction clks as [|clk clks IH]; intros s Hid Hh Hne; [congruence|].
  cbn [saveRepeatedly].
  destruct (saveCurrentChat_real_id s clk (start s) Hid Hh) as (S1 & S2 & S3).
  destruct (saveCurrentChat_keeps s clk (start s))
    as (_ & _ & _ & _ & K & _).
  cbn zeta in *. cbn [st start] in S3, K.
  set (s1 := st (saveCurrentChat s clk (start s))) in *.
  destruct clks as [|clk' clks'].
  - cbn [saveRepeatedly]. split; [|auto].
    rewrite S1, countId_cons, S2, String.eqb_refl, countId_filter_out.
    reflexivity.
  - destruct (IH s1) as (I1 & I2 & I3); [congruence|congruence|discriminate|].
    rewrite S3 in I1, I2. rewrite K in I3. auto.
Qed.

(** C7.  When the session has a real id and a non-empty transcript, after
    any number (at least one) of consecutive calls of [saveCurrentChat]
    the stored list holds exactly one conversation with that id. *)
Theorem C7_save_is_idempotent_per_id :
  forall s clks,
    currentChatId s <> "new" ->
    chatHistory s <> [] ->
    clks <> [] ->
    countId (currentChatId s) (savedChats (saveRepeatedly clks s)) = 1%nat.
Proof.
  intros s clks Hid Hh Hne.
  now destruct (saveRepeatedly_real_id clks s Hid Hh Hne).
Qed.

Lemma C7_witness :
  countId "1700000000000"
    (savedChats (saveRepeatedly [Sample.clk; Sample.clk; Sample.clk]
                   Sample.active)) = 1%nat.
Proof.
  apply (C7_save_is_idempotent_per_id Sample.active
           [Sample.clk; Sample.clk; Sample.clk]);
    cbn; discriminate.
Defined.

(** ** C8 *)

(** C8.  Loading a stored conversation (the one [find] returns for the
    id) shows its transcript and sets [hasSentMessage] to true exactly
    when that transcript is non-empty: false for length 0, true for a
    positive length. *)
Theorem C8_load_sets_sent_flag :
  forall c clk chatId chatToLoad,
    find (fun chat => (SavedChat.id chat =? chatId)%string) (savedChats c)
    = Some chatToLoad ->
    let s' := st (loadChat c clk chatId (start c)) in
    chatHistory s' = SavedChat.messages chatToLoad
    /\ (hasSentMessage s' = true <-> SavedChat.messages chatToLoad <> [])
    /\ (List.length (SavedChat.messages chatToLoad) = O ->
        hasSentMessage s' = false)
    /\ ((0 < List.length (SavedChat.messages chatToLoad))%nat ->
        hasSentMessage s' = true).
Proof.
  intros c clk chatId chatToLoad H. unfold loadChat. rewrite H.
  unfold seq_handler. cbn.
  destruct (SavedChat.messages chatToLoad) as [|m ms]; cbn.
  - repeat split; try congruence; lia.
  - repeat split; try congruence; lia.
Qed.

Lemma C8_witness :
  hasSentMessage
    (st (loadChat Sample.active Sample.clk "1700000000000"
           (start Sample.active))) = true.
Proof.
  apply (C8_load_sets_sent_flag Sample.active Sample.clk "1700000000000"
           Sample.stored); [reflexivity|cbn; lia].
Defined.

(** ** C10 *)

Lemma find_absent chatId (chats : list SavedChat.t) :
  (forall chat, In chat chats -> SavedChat.id chat <> chatId) ->
  find (fun chat => (SavedChat.id chat =? chatId)%string) chats = None.
Proof.
  intros H. destruct (find _ chats) as [chat|] eqn:E; [|reflexivity].
  apply find_some in E as [E1 E2]. apply String.eqb_eq in E2.
  now apply H in E1.
Qed.

(** C10, as the code has it.  Loading an id that no stored conversation
    has does what [saveCurrentChat] does and nothing more: title,
    transcript, documents and sent flag keep their values, and so does
    the current id unless it was ["new"] with a non-empty transcript, in
    which case the save replaces it by the id it minted. *)
Theorem C10_load_absent_id :
  forall c clk chatId,
    (forall chat, In chat (savedChats c) -> SavedChat.id chat <> chatId) ->
    let r' := loadChat c clk chatId (start c) in
    r' = saveCurrentChat c clk (start c)
    /\ currentChatTitle (st r') = currentChatTitle c
    /\ chatHistory (st r') = chatHistory c
    /\ documents (st r') = documents c
    /\ hasSentMessage (st r') = hasSentMessage c
    /\ currentChatId (st r')
       = (if (currentChatId c =? "new")%string
             && (0 <? Z.of_nat (List.length (chatHistory c)))
          then Js.string_of_Z (now clk)
          else currentChatId c).
Proof.
  intros c clk chatId H. unfold loadChat, seq_handler.
  rewrite (find_absent _ _ H). unfold skip.
  split; [reflexivity|].
  destruct (saveCurrentChat_keeps c clk (start c))
    as (K1 & _ & _ & _ & K5 & K6 & K7).
  cbn zeta in *. cbn [st start] in *.
  split; [exact K6|]. split; [exact K5|]. split; [exact K7|].
  split; [exact K1|].
  unfold saveCurrentChat, chatToSave.
  destruct (0 <? _); [|rewrite andb_false_r; reflexivity].
  destruct (currentChatId c =? "new")%string; reflexivity.
Qed.

Lemma C10_witness :
  st (loadChat Sample.active Sample.clk "42" (start Sample.active))
  = st (saveCurrentChat Sample.active Sample.clk (start Sample.active))
  /\ currentChatId
       (st (loadChat Sample.active Sample.clk "42" (start Sample.active)))
     = "1700000000000".
Proof.
  destruct (C10_load_absent_id Sample.active Sample.clk "42")
    as (H1 & _ & _ & _ & _ & H6).
  - intros chat [<-|[]]. cbn. discriminate.
  - split; [now rewrite H1|exact H6].
Defined.

(** C10 as stated fails: a chat that was answered but not saved yet has
    id ["new"]; loading an id that is not stored saves it, and the
    current id becomes the minted one. *)
Lemma C10_counterexample :
  (forall chat, In chat (savedChats Sample.answered) ->
                SavedChat.id chat <> "42")
  /\ currentChatId Sample.answered = "new"
  /\ currentChatId
       (st (loadChat Sample.answered Sample.clk "42"
              (start Sample.answered)))
     = "1700000360000".
Proof.
  split; [intros chat []|]. split; reflexivity.
Qed.

(** * Further properties *)

(** ** The outcome of one attempt *)

Lemma has_suffix_refl (s : string) : has_suffix s s.
Proof. now exists EmptyString. Qed.

Lemma catchBlock_next err n r :
  n < MAX_RETRIES ->
  catchBlock err n r
  = Next (n + 1)
      ((setError (Some (networkRetryError err
                          (INITIAL_BACKOFF_MS * 2 ^ n) n)) ;;
        setIsRetrying true ;;
        emit (Wait (INITIAL_BACKOFF_MS * 2 ^ n))) r).
Proof.
  intros H. unfold catchBlock. apply Z.ltb_lt in H. now rewrite H.
Qed.


(** While attempts remain, a transient outcome records a notice that ends
    with the countdown, sets retrying, waits, and goes round again. *)
Lemma attempt_transient c net clk msgs n r :
  n < MAX_RETRIES ->
  transient (net (fetches (trace r))) = true ->
  exists msg,
    attempt c net clk msgs n r
    = Next (n + 1)
        ((setError (Some msg) ;;
          setIsRetrying true ;;
          emit (Wait (INITIAL_BACKOFF_MS * 2 ^ n)))
           (emit (Fetch (apiKey c) msgs) r))
    /\ has_suffix (retryingIn (INITIAL_BACKOFF_MS * 2 ^ n) n) msg.
Proof.
  intros Hn Ht. unfold attempt.
  assert (C : forall err, exists msg,
    catchBlock err n (emit (Fetch (apiKey c) msgs) r)
    = Next (n + 1)
        ((setError (Some msg) ;;
          setIsRetrying true ;;
          emit (Wait (INITIAL_BACKOFF_MS * 2 ^ n)))
           (emit (Fetch (apiKey c) msgs) r))
    /\ has_suffix (retryingIn (INITIAL_BACKOFF_MS * 2 ^ n) n) msg).
  { intros err. eexists. split; [apply catchBlock_next, Hn|].
    unfold networkRetryError. do 3 apply has_suffix_prepend.
    apply has_suffix_refl. }
  destruct (net (fetches (trace r))) as [err|response]; [apply C|].
  cbn [transient] in Ht. unfold tryBlock.
  destruct (ok response).
  - destruct (body response); [apply C|apply C|discriminate].
  - destruct (body response) as [err| |m em];
      [|destruct (_ && _); apply C|];
      rewrite Ht; apply Z.ltb_lt in Hn; rewrite Hn; cbn [andb];
      (eexists; split; [reflexivity|]);
      unfold retryableError; do 4 apply has_suffix_prepend;
      apply has_suffix_refl.
Qed.

(** A 2xx response with a parsed body ends the invocation. *)
Lemma attempt_ok c net clk msgs n r response m em :
  net (fetches (trace r)) = Resolved response ->
  ok response = true ->
  body response = JData m em ->
  attempt c net clk msgs n r
  = Return ExitResponseOk
      (((match m with
         | Some a => setChatHistoryWith (fun prev => (prev ++ [a])%list)
         | None => setError (Some "No response from assistant.")
         end) ;;
        setIsLoading false ;;
        setIsRetrying false ;;
        saveCurrentChat c clk) (emit (Fetch (apiKey c) msgs) r)).
Proof.
  intros Hnet Hok Hb. unfold attempt, tryBlock.
  now rewrite Hnet, Hok, Hb.
Qed.


(** A pass that goes round again had a transient outcome. *)
Lemma attempt_next_transient c net clk msgs n r n' r' :
  attempt c net clk msgs n r = Next n' r' ->
  n < MAX_RETRIES /\ transient (net (fetches (trace r))) = true.
Proof.
  intros E.
  pose proof (attempt_spec c net clk msgs n r) as A. rewrite E in A.
  destruct A as (A1 & _). split; [exact A1|].
  destruct (transient (net (fetches (trace r)))) eqn:T; [reflexivity|].
  exfalso. unfold attempt in E.
  destruct (net (fetches (trace r))) as [err|response]; [discriminate|].
  cbn [transient] in T. unfold tryBlock in E.
  destruct (ok response).
  - destruct (body response); discriminate.
  - destruct (body response) as [err| |m em]; try discriminate;
      rewrite T in E; cbn [andb] in E; discriminate.
Qed.

(** X2.  A pass through the loop body goes round again if and only if the
    counter is below [MAX_RETRIES] and the outcome of [fetch] is
    transient: a thrown error, a 2xx response whose body cannot be read,
    a non-2xx response whose body is [null], or a non-2xx response with
    status 429 or at least 500. *)
Theorem attempt_retries_iff_transient :
  forall c net clk msgs n r,
    isNext (attempt c net clk msgs n r)
    <-> n < MAX_RETRIES /\ transient (net (fetches (trace r))) = true.
Proof.
  intros c net clk msgs n r. split.
  - intros H.
    destruct (attempt c net clk msgs n r) as [n' r'|e r'] eqn:E;
      [|destruct H].
    exact (attempt_next_transient c net clk msgs n r n' r' E).
  - intros [Hn Ht].
    destruct (attempt_transient c net clk msgs n r Hn Ht) as (msg & -> & _).
    exact I.
Qed.

(** ** What a save changes *)

Lemma saveCurrentChat_effect c clk r :
  let r' := saveCurrentChat c clk r in
  savedChats (st r') = savedAfterSave c clk (savedChats (st r))
  /\ currentChatId (st r') = idAfterSave c clk (currentChatId (st r))
  /\ trace r' = trace r
  /\ apiKey (st r') = apiKey (st r)
  /\ message (st r') = message (st r)
  /\ chatHistory (st r') = chatHistory (st r)
  /\ currentChatTitle (st r') = currentChatTitle (st r)
  /\ isLoading (st r') = isLoading (st r)
  /\ error (st r') = error (st r)
  /\ documents (st r') = documents (st r)
  /\ showTextInput (st r') = showTextInput (st r)
  /\ manualText (st r') = manualText (st r)
  /\ hasSentMessage (st r') = hasSentMessage (st r)
  /\ isOnline (st r') = isOnline (st r)
  /\ isRetrying (st r') = isRetrying (st r).
Proof.
  unfold saveCurrentChat, savedAfterSave, idAfterSave, chatToSave.
  destruct (0 <? _); [|cbn; tauto].
  destruct (currentChatId c =? "new")%string; cbn; tauto.
Qed.

Lemma SameButNotice_refl s : SameButNotice s s.
Proof. now constructor. Qed.

Lemma SameButNotice_trans s1 s2 s3 :
  SameButNotice s1 s2 -> SameButNotice s2 s3 -> SameButNotice s1 s3.
Proof. intros [] []. constructor; congruence. Qed.

(** ** How an attempt returns *)

Lemma attempt_return_cases c net clk msgs n r e r' :
  attempt c net clk msgs n r = Return e r' ->
  (exists response m em,
      net (fetches (trace r)) = Resolved response
      /\ ok response = true
      /\ body response = JData m em
      /\ e = ExitResponseOk
      /\ r' = ((match m with
                | Some a =>
                    setChatHistoryWith (fun prev => (prev ++ [a])%list)
                | None => setError (Some "No response from assistant.")
                end) ;;
               setIsLoading false ;;
               setIsRetrying false ;;
               saveCurrentChat c clk) (emit (Fetch (apiKey c) msgs) r))
  \/ (exists msg,
         (e = ExitApiError \/ e = ExitNetworkError)
         /\ r' = (setError (Some msg) ;;
                  setIsLoading false ;;
                  setIsRetrying false) (emit (Fetch (apiKey c) msgs) r)).
Proof.
  unfold attempt. intros H.
  assert (C : forall err,
    catchBlock err n (emit (Fetch (apiKey c) msgs) r) = Return e r' ->
    exists msg,
      (e = ExitApiError \/ e = ExitNetworkError)
      /\ r' = (setError (Some msg) ;;
               setIsLoading false ;;
               setIsRetrying false) (emit (Fetch (apiKey c) msgs) r)).
  { intros err E. unfold catchBlock in E.
    destruct (n <? MAX_RETRIES); [discriminate|].
    injection E as <- <-. eexists. split; [now right|reflexivity]. }
  destruct (net (fetches (trace r))) as [err|response];
    [right; eapply C; eassumption|].
  unfold tryBlock in H. destruct (ok response) eqn:O.
  - destruct (body response) as [err| |m em] eqn:B;
      [right; eapply C; eassumption|right; eapply C; eassumption|].
    injection H as <- <-. left. exists response, m, em.
    repeat split; auto.
  - right. destruct (_ && _).
    + destruct (body response); try discriminate; eapply C; eassumption.
    + destruct (body response); try (eapply C; eassumption);
        injection H as <- <-; eexists; split; (now left) || reflexivity.
Qed.


(** ** The loop, with the outcomes it went through *)

Section Run.

Variables (c : State) (net : Network) (clk : Clock)
          (msgs : list ChatMessage.t).

Lemma retryLoop_run (fuel : nat) :
  forall n r,
    0 <= n <= MAX_RETRIES ->
    (Z.to_nat (MAX_RETRIES - n) < fuel)%nat ->
    exists k e r_last r',
      retryLoop fuel c net clk msgs n r = Some (e, r')
      /\ n + Z.of_nat k <= MAX_RETRIES
      /\ trace r_last = (trace r ++ schedule (apiKey c) msgs n k)%list
      /\ attempt c net clk msgs (n + Z.of_nat k) r_last = Return e r'
      /\ (forall i, (i < k)%nat ->
            transient (net (fetches (trace r) + i)%nat) = true)
      /\ SameButNotice (st r) (st r_last)
      /\ (k = O -> r_last = r)
      /\ ((0 < k)%nat ->
          isRetrying (st r_last) = true
          /\ exists msg,
               error (st r_last) = Some msg
               /\ has_suffix
                    (retryingIn
                       (INITIAL_BACKOFF_MS * 2 ^ (n + Z.of_nat k - 1))
                       (n + Z.of_nat k - 1)) msg).
Proof.
  induction fuel as [|fuel IH]; intros n r Hn Hfuel; [lia|].
  cbn [retryLoop].
  destruct (n <=? MAX_RETRIES) eqn:E; [|apply Z.leb_gt in E; lia].
  destruct (attempt c net clk msgs n r) as [n' r1|e r1] eqn:Ea.
  - destruct (attempt_next_transient c net clk msgs n r n' r1 Ea)
      as [N1 N2].
    destruct (attempt_transient c net clk msgs n r N1 N2) as (msg & A & Hsuf).
    rewrite Ea in A. injection A as -> ->.
    match goal with
    | |- context [retryLoop fuel c net clk msgs (n + 1) ?x] =>
        set (r1 := x) in *
    end.
    assert (T1 : trace r1
                 = (trace r ++ [Fetch (apiKey c) msgs;
                                Wait (INITIAL_BACKOFF_MS * 2 ^ n)])%list).
    { subst r1. cbn. rewrite <- app_assoc. reflexivity. }
    assert (Q1 : SameButNotice (st r) (st r1)) by now constructor.
    destruct (IH (n + 1) r1)
      as (k & e & r_last & r' & L1 & L2 & L3 & L4 & L5 & L6 & L7 & L8);
      [lia|unfold MAX_RETRIES in *; lia|].
    exists (S k), e, r_last, r'.
    replace (n + Z.of_nat (S k)) with (n + 1 + Z.of_nat k) by lia.
    conjs; auto.
    + rewrite L3, T1, <- app_assoc. reflexivity.
    + intros [|i] Hi; [now rewrite Nat.add_0_r|].
      specialize (L5 i ltac:(lia)).
      rewrite T1, fetches_app in L5. cbn in L5.
      now replace (fetches (trace r) + S i)%nat
        with (fetches (trace r) + 1 + i)%nat by lia.
    + eapply SameButNotice_trans; eassumption.
    + discriminate.
    + intros _. destruct k as [|k].
      * rewrite (L7 eq_refl). split; [reflexivity|].
        exists msg. split; [reflexivity|].
        now replace (n + 1 + Z.of_nat 0 - 1) with n by lia.
      * apply L8. lia.
  - exists O, e, r, r1.
    rewrite Z.add_0_r, app_nil_r. conjs; auto.
    + lia.
    + intros i Hi. lia.
    + apply SameButNotice_refl.
    + intros Hk. lia.
Qed.

End Run.


(** ** An invocation, by the outcomes of its attempts *)

(** When the first [j] outcomes are transient and attempt [j] is the last
    one (the sixth, or one whose outcome is not transient), the invocation
    makes [j] failed attempts and returns from attempt [j]. *)
Lemma sendMessage_run trim fuel c net clk j :
  passesPreconditions trim c = true ->
  (6 <= fuel)%nat ->
  (j <= 5)%nat ->
  (forall i, (i < j)%nat -> transient (net i) = true) ->
  j = 5%nat \/ transient (net j) = false ->
  exists e r_last r,
    sendMessage trim fuel c net clk (start c) = Some (e, r)
    /\ trace r_last = schedule (apiKey c) (apiMessages c) 0 j
    /\ attempt c net clk (apiMessages c) (Z.of_nat j) r_last = Return e r
    /\ SameButNotice (st (beginRequest c (start c))) (st r_last)
    /\ (j = O -> error (st r_last) = None)
    /\ ((0 < j)%nat ->
        exists msg,
          error (st r_last) = Some msg
          /\ has_suffix
               (retryingIn (INITIAL_BACKOFF_MS * 2 ^ (Z.of_nat j - 1))
                  (Z.of_nat j - 1)) msg).
Proof.
  intros P Hfuel Hj Hpre Hlast.
  rewrite (sendMessage_passes _ _ _ _ _ _ P).
  destruct (retryLoop_run c net clk (apiMessages c) fuel 0
              (beginRequest c (start c)))
    as (k & e & r_last & r & L1 & L2 & L3 & L4 & L5 & L6 & L7 & L8);
    [unfold MAX_RETRIES; lia|unfold MAX_RETRIES; cbn; lia|].
  cbn [Z.add] in L4, L8. cbn in L3. cbn [fetches Nat.add] in L5.
  change (trace (beginRequest c (start c))) with (@nil Event) in L5.
  cbn [fetches Nat.add] in L5. unfold MAX_RETRIES in L2.
  assert (F : fetches (trace r_last) = k)
    by (rewrite L3; apply fetches_schedule).
  assert (K : k = j).
  { destruct (Nat.lt_trichotomy k j) as [H|[H|H]]; [|exact H|].
    - exfalso.
      destruct (attempt_transient c net clk (apiMessages c) (Z.of_nat k)
                  r_last) as (msg & N & _);
        [unfold MAX_RETRIES; lia|rewrite F; now apply Hpre|].
      rewrite L4 in N. discriminate.
    - exfalso. destruct Hlast as [->|Hlast]; [lia|].
      rewrite (L5 j H) in Hlast. discriminate. }
  clear F. subst k. exists e, r_last, r. conjs; auto.
  - intros ->. now rewrite (L7 eq_refl).
  - intros H. destruct (L8 H) as (_ & msg & M1 & M2). now exists msg.
Qed.


(** The run with which a 2xx response ends the invocation. *)
Lemma ok_final_state c clk bearer msgs r_last m :
  let r :=
    ((match m with
      | Some a => setChatHistoryWith (fun prev => (prev ++ [a])%list)
      | None => setError (Some "No response from assistant.")
      end) ;;
     setIsLoading false ;;
     setIsRetrying false ;;
     saveCurrentChat c clk) (emit (Fetch bearer msgs) r_last) in
  trace r = (trace r_last ++ [Fetch bearer msgs])%list
  /\ chatHistory (st r)
     = (chatHistory (st r_last)
          ++ match m with Some a => [a] | None => [] end)%list
  /\ error (st r)
     = match m with
       | Some _ => error (st r_last)
       | None => Some "No response from assistant."
       end
  /\ isLoading (st r) = false
  /\ isRetrying (st r) = false
  /\ savedChats (st r) = savedAfterSave c clk (savedChats (st r_last))
  /\ currentChatId (st r) = idAfterSave c clk (currentChatId (st r_last))
  /\ Untouched (st r_last) (st r).
Proof.
  intros r. subst r. unfold seq_handler.
  match goal with
  | |- context [saveCurrentChat c clk ?x] =>
      destruct (saveCurrentChat_effect c clk x)
        as (E1 & E2 & E3 & E4 & E5 & E6 & E7 & E8 & E9 & E10 & E11 & E12
            & E13 & E14 & E15);
      set (r := saveCurrentChat c clk x) in *
  end.
  cbn zeta in *. conjs.
  - rewrite E3. destruct m; reflexivity.
  - rewrite E6. destruct m; cbn; [reflexivity|now rewrite app_nil_r].
  - rewrite E9. destruct m; reflexivity.
  - rewrite E8. destruct m; reflexivity.
  - rewrite E15. destruct m; reflexivity.
  - rewrite E1. destruct m; reflexivity.
  - rewrite E2. destruct m; reflexivity.
  - constructor;
      rewrite ?E4, ?E5, ?E7, ?E10, ?E11, ?E12, ?E13, ?E14;
      destruct m; reflexivity.
Qed.

(** The run with which an error ends the invocation. *)
Lemma error_final_state bearer msgs r_last msg :
  let r :=
    (setError (Some msg) ;; setIsLoading false ;; setIsRetrying false)
      (emit (Fetch bearer msgs) r_last) in
  trace r = (trace r_last ++ [Fetch bearer msgs])%list
  /\ chatHistory (st r) = chatHistory (st r_last)
  /\ error (st r) = Some msg
  /\ isLoading (st r) = false
  /\ isRetrying (st r) = false
  /\ savedChats (st r) = savedChats (st r_last)
  /\ currentChatId (st r) = currentChatId (st r_last)
  /\ Untouched (st r_last) (st r).
Proof. cbn. conjs; auto. now constructor. Qed.




(** X4.  The success branch never writes [error]: a pass that receives
    a 2xx response with a message leaves the field as it finds it,
    whatever the pending state.  So when an invocation succeeds at attempt
    [j >= 1], and nothing else (no other action, no timer callback) ran in
    between, [error] still holds the notice of retry [j - 1], which ends
    with its countdown. *)
Theorem retry_notice_survives_success :
  forall trim fuel c net clk j response m em,
    passesPreconditions trim c = true ->
    (6 <= fuel)%nat ->
    (0 < j <= 5)%nat ->
    (forall i, (i < j)%nat -> transient (net i) = true) ->
    net j = Resolved response ->
    ok response = true ->
    body response = JData (Some m) em ->
    (forall msgs n r0,
        net (fetches (trace r0)) = Resolved response ->
        exists r1,
          attempt c net clk msgs n r0 = Return ExitResponseOk r1
          /\ error (st r1) = error (st r0))
    /\ exists r msg,
         sendMessage trim fuel c net clk (start c)
         = Some (ExitResponseOk, r)
         /\ error (st r) = Some msg
         /\ has_suffix
              (retryingIn (1000 * 2 ^ (Z.of_nat j - 1)) (Z.of_nat j - 1))
              msg.
Proof.
  intros trim fuel c net clk j response m em P Hfuel Hj Hpre Hnet Hok Hb.
  split.
  { intros msgs n r0 H0.
    rewrite (attempt_ok c net clk msgs n r0 response (Some m) em H0 Hok Hb).
    eexists. split; [reflexivity|].
    destruct (ok_final_state c clk (apiKey c) msgs r0 (Some m))
      as (_ & _ & T3 & _).
    exact T3. }
  destruct (sendMessage_run trim fuel c net clk j P Hfuel ltac:(lia) Hpre)
    as (e & r_last & r & S1 & S2 & S3 & _ & _ & S6).
  { right. rewrite Hnet. cbn. now rewrite Hok, Hb. }
  assert (F : fetches (trace r_last) = j)
    by (rewrite S2; apply fetches_schedule).
  rewrite (attempt_ok c net clk (apiMessages c) (Z.of_nat j) r_last
             response (Some m) em) in S3 by (rewrite ?F; assumption).
  injection S3 as <- <-.
  destruct (S6 ltac:(lia)) as (msg & M1 & M2).
  destruct (ok_final_state c clk (apiKey c) (apiMessages c) r_last (Some m))
    as (_ & _ & T3 & _).
  cbn zeta in T3. eexists _, msg. split; [exact S1|].
  split; [now rewrite T3|exact M2].
Qed.




(** ** Guards *)

(** The run with which a validation guard ends the invocation. *)
Lemma sendMessage_invalid trim fuel c net clk r :
  hasSentMessage c = false ->
  passesPreconditions trim c = false ->
  exists msg,
    sendMessage trim fuel c net clk r
    = Some (ExitInvalid,
            (setError (Some msg) ;;
             emit (Timer (if Js.truthy (trim (message c))
                             && negb (Z.of_nat (List.length (documents c))
                                      =? 0)
                             && Js.truthy (trim (apiKey c))
                          then 5000 else 3000))) r).
Proof.
  intros Hs P.
  unfold passesPreconditions in P. unfold sendMessage, failValidation.
  rewrite Hs in *. cbn [negb andb] in P.
  destruct (Js.truthy (trim (message c))); cbn [negb andb] in *;
    [|eexists; reflexivity].
  destruct (Z.of_nat (List.length (documents c)) =? 0); cbn [negb andb] in *;
    [eexists; reflexivity|].
  destruct (Js.truthy (trim (apiKey c))); cbn [negb andb] in *;
    [|eexists; reflexivity].
  destruct (isOnline c); [discriminate|]. cbn [negb].
  eexists; reflexivity.
Qed.

(** X1.  An invocation stopped by one of the four validation guards makes
    no network call and no wait: it sets an error, arms one timer (5000 ms
    when the only failing guard is the connectivity one, 3000 ms
    otherwise) and leaves every other field as it was, the transcript and
    the sent flag included. *)
Theorem send_rejected_by_guard :
  forall trim fuel c net clk r,
    hasSentMessage c = false ->
    passesPreconditions trim c = false ->
    exists r' msg,
      sendMessage trim fuel c net clk r = Some (ExitInvalid, r')
      /\ error (st r') = Some msg
      /\ trace r'
         = (trace r
              ++ [Timer (if Js.truthy (trim (message c))
                            && negb (Z.of_nat (List.length (documents c))
                                     =? 0)
                            && Js.truthy (trim (apiKey c))
                         then 5000 else 3000)])%list
      /\ fetches (trace r') = fetches (trace r)
      /\ waits (trace r') = waits (trace r)
      /\ SameButNotice (st r) (st r')
      /\ isRetrying (st r') = isRetrying (st r).
Proof.
  intros trim fuel c net clk r Hs P.
  destruct (sendMessage_invalid trim fuel c net clk r Hs P) as (msg & H).
  eexists _, msg. split; [exact H|].
  split; [reflexivity|]. split; [reflexivity|].
  split; [cbn; rewrite fetches_app; cbn; lia|].
  split; [cbn; rewrite waits_app; cbn; apply app_nil_r|].
  split; [now constructor|reflexivity].
Qed.

Lemma send_rejected_by_guard_witness :
  exists r',
    sendMessage Sample.trim 0 Scenario.offline
      (Sample.always (Sample.http 200)) Sample.clk (start Scenario.offline)
    = Some (ExitInvalid, r')
    /\ trace r' = [Timer 5000]
    /\ chatHistory (st r') = [].
Proof.
  destruct (send_rejected_by_guard Sample.trim 0 Scenario.offline
              (Sample.always (Sample.http 200)) Sample.clk
              (start Scenario.offline))
    as (r' & msg & H1 & _ & H3 & _ & _ & H6 & _);
    [reflexivity|reflexivity|].
  exists r'. split; [exact H1|]. split; [exact H3|].
  now rewrite (sbn_chatHistory _ _ H6).
Defined.

(** ** What an invocation leaves alone *)

(** What an invocation that passes the guards does to a pending state. *)
Lemma sendMessage_effect :
  forall trim fuel c net clk r,
    passesPreconditions trim c = true ->
    (6 <= fuel)%nat ->
    exists e r' tail,
      sendMessage trim fuel c net clk r = Some (e, r')
      /\ chatHistory (st r')
         = (chatHistory (st r) ++ userMessage c :: tail)%list
      /\ (tail = []
          \/ exists k response m em,
               net k = Resolved response
               /\ ok response = true
               /\ body response = JData (Some m) em
               /\ tail = [m])
      /\ message (st r') = EmptyString
      /\ hasSentMessage (st r') = true
      /\ isLoading (st r') = false
      /\ isRetrying (st r') = false
      /\ apiKey (st r') = apiKey (st r)
      /\ currentChatTitle (st r') = currentChatTitle (st r)
      /\ documents (st r') = documents (st r)
      /\ showTextInput (st r') = showTextInput (st r)
      /\ manualText (st r') = manualText (st r)
      /\ isOnline (st r') = isOnline (st r)
      /\ ((savedChats (st r') = savedChats (st r)
           /\ currentChatId (st r') = currentChatId (st r))
          \/ (e = ExitResponseOk
              /\ savedChats (st r')
                 = savedAfterSave c clk (savedChats (st r))
              /\ currentChatId (st r')
                 = idAfterSave c clk (currentChatId (st r)))).
Proof.
  intros trim fuel c net clk r P Hfuel.
  rewrite (sendMessage_passes _ _ _ _ _ _ P).
  destruct (retryLoop_run c net clk (apiMessages c) fuel 0
              (beginRequest c r))
    as (k & e & r_last & r' & L1 & _ & _ & L4 & _ & Q & _);
    [unfold MAX_RETRIES; lia|unfold MAX_RETRIES; cbn; lia|].
  assert (B : chatHistory (st (beginRequest c r))
              = (chatHistory (st r) ++ [userMessage c])%list
              /\ message (st (beginRequest c r)) = EmptyString
              /\ hasSentMessage (st (beginRequest c r)) = true
              /\ apiKey (st (beginRequest c r)) = apiKey (st r)
              /\ currentChatTitle (st (beginRequest c r))
                 = currentChatTitle (st r)
              /\ documents (st (beginRequest c r)) = documents (st r)
              /\ showTextInput (st (beginRequest c r))
                 = showTextInput (st r)
              /\ manualText (st (beginRequest c r)) = manualText (st r)
              /\ isOnline (st (beginRequest c r)) = isOnline (st r)
              /\ savedChats (st (beginRequest c r)) = savedChats (st r)
              /\ currentChatId (st (beginRequest c r))
                 = currentChatId (st r))
    by (cbn; tauto).
  destruct B as (B1 & B2 & B3 & B4 & B5 & B6 & B7 & B8 & B9 & B10 & B11).
  destruct Q.
  apply attempt_return_cases in L4
    as [(response & m & em & N1 & N2 & N3 & -> & ->)|(msg & _ & ->)].
  - destruct (ok_final_state c clk (apiKey c) (apiMessages c) r_last m)
      as (_ & T2 & _ & T4 & T5 & T6 & T7 & []).
    cbn zeta in *.
    eexists _, _, (match m with Some a => [a] | None => [] end).
    split; [exact L1|]. conjs; try congruence.
    + rewrite T2, sbn_chatHistory0, B1, <- app_assoc. reflexivity.
    + destruct m as [a|]; [right|now left].
      exists (fetches (trace r_last)), response, a, em. auto.
    + right. split; [reflexivity|]. split; congruence.
  - destruct (error_final_state (apiKey c) (apiMessages c) r_last msg)
      as (_ & T2 & _ & T4 & T5 & T6 & T7 & []).
    cbn zeta in *. eexists _, _, []. split; [exact L1|].
    conjs; try congruence.
    + now left.
    + left. split; congruence.
Qed.

(** X8.  Whatever the pending state and the network, an invocation that
    passes the guards only appends to the transcript: first the user
    message, then at most one message, which came in a 2xx response.  It
    clears the input, sets the sent flag, ends with loading and retrying
    cleared, never writes the API key, the title, the documents or the
    text input, and changes the store and the current id at most the way
    [saveCurrentChat] of the calling render does. *)
Theorem send_frame :
  forall trim fuel c net clk r,
    passesPreconditions trim c = true ->
    (6 <= fuel)%nat ->
    exists e r' tail,
      sendMessage trim fuel c net clk r = Some (e, r')
      /\ chatHistory (st r')
         = (chatHistory (st r) ++ userMessage c :: tail)%list
      /\ (tail = []
          \/ exists k response m em,
               net k = Resolved response
               /\ ok response = true
               /\ body response = JData (Some m) em
               /\ tail = [m])
      /\ message (st r') = EmptyString
      /\ hasSentMessage (st r') = true
      /\ isLoading (st r') = false
      /\ isRetrying (st r') = false
      /\ apiKey (st r') = apiKey (st r)
      /\ currentChatTitle (st r') = currentChatTitle (st r)
      /\ documents (st r') = documents (st r)
      /\ showTextInput (st r') = showTextInput (st r)
      /\ manualText (st r') = manualText (st r)
      /\ isOnline (st r') = isOnline (st r)
      /\ ((savedChats (st r') = savedChats (st r)
           /\ currentChatId (st r') = currentChatId (st r))
          \/ (e = ExitResponseOk
              /\ savedChats (st r')
                 = savedAfterSave c clk (savedChats (st r))
              /\ currentChatId (st r')
                 = idAfterSave c clk (currentChatId (st r)))).
Proof.
  intros trim fuel c net clk r P Hfuel.
  destruct (sendMessage_effect trim fuel c net clk r P Hfuel)
    as (e & r' & tail & H).
  exists e, r', tail. exact H.
Qed.

Lemma send_frame_witness :
  exists e r',
    sendMessage Sample.trim 6 Sample.ready
      (Sample.always
         (Resolved {| status := 200;
                      body := JData (Some Sample.answer) None |}))
      Sample.clk (start Sample.active) = Some (e, r')
    /\ chatHistory (st r')
       = [Sample.question; Sample.answer; Sample.question; Sample.answer]
    /\ documents (st r') = documents Sample.active.
Proof.
  destruct (send_frame Sample.trim 6 Sample.ready
              (Sample.always
                 (Resolved {| status := 200;
                              body := JData (Some Sample.answer) None |}))
              Sample.clk (start Sample.active))
    as (e & r' & tail & H1 & _ & _ & _ & _ & _ & _ & _ & _ & H10 & _);
    [reflexivity|lia|].
  exists e, r'. split; [exact H1|]. split; [|exact H10].
  vm_compute in H1. injection H1 as <- <-. reflexivity.
Defined.

(** X9.  Every call of one invocation carries the API key and the message
    list of the render in which [sendMessage] was called: retries resend
    the same request. *)
Theorem retries_resend_the_same_request :
  forall trim fuel c net clk,
    passesPreconditions trim c = true ->
    (6 <= fuel)%nat ->
    exists e r,
      sendMessage trim fuel c net clk (start c) = Some (e, r)
      /\ forall bearer msgs,
           In (Fetch bearer msgs) (trace r) ->
           bearer = apiKey c /\ msgs = apiMessages c.
Proof.
  intros trim fuel c net clk P Hfuel.
  destruct (sendMessage_trace trim fuel c net clk P Hfuel)
    as (k & e & r_last & r & S1 & _ & _ & _ & S5 & _).
  exists e, r. split; [exact S1|].
  intros bearer msgs H. rewrite S5 in H.
  apply in_app_or in H as [H|[H|[]]].
  - clear - H. revert H. generalize 0.
    induction k as [|k IH]; intros z H; [destruct H|].
    cbn in H. destruct H as [H|[H|H]]; try discriminate.
    + injection H as <- <-. auto.
    + eapply IH, H.
  - injection H as <- <-. auto.
Qed.

Lemma retries_resend_the_same_request_witness :
  exists e r,
    sendMessage Sample.trim 6 Sample.ready (Sample.always (Sample.http 500))
      Sample.clk (start Sample.ready) = Some (e, r)
    /\ In (Fetch "sk-test" (apiMessages Sample.ready)) (trace r)
    /\ fetches (trace r) = 6%nat.
Proof.
  destruct (retries_resend_the_same_request Sample.trim 6 Sample.ready
              (Sample.always (Sample.http 500)) Sample.clk)
    as (e & r & H & _); [reflexivity|lia|].
  exists e, r. split; [exact H|].
  vm_compute in H. injection H as <- <-.
  split; [now left|reflexivity].
Defined.


Lemma retry_notice_survives_success_witness :
  exists r,
    sendMessage Sample.trim 6 Sample.ready
      (Scenario.failing (Scenario.answers Sample.answer)) Sample.clk
      (start Sample.ready) = Some (ExitResponseOk, r)
    /\ error (st r)
       = Some ("API request failed (status 429). "
               ++ "Retrying in 16s... (Attempt 5/5)").
Proof.
  destruct (retry_notice_survives_success Sample.trim 6 Sample.ready
              (Scenario.failing (Scenario.answers Sample.answer))
              Sample.clk 5
              {| status := 200; body := JData (Some Sample.answer) None |}
              Sample.answer None)
    as (_ & r & msg & H1 & _);
    [reflexivity|lia|lia| |reflexivity|reflexivity|reflexivity|].
  - intros [|[|[|[|[|i]]]]] Hi; try reflexivity; lia.
  - exists r. split; [exact H1|].
    vm_compute in H1. injection H1 as <-. reflexivity.
Defined.




(** ** The controller, action by action *)

Lemma createNewChat_effect s clk :
  let s' := st (createNewChat s clk (start s)) in
  savedChats s' = savedAfterSave s clk (savedChats s)
  /\ currentChatId s' = "new"
  /\ currentChatTitle s' = "New Chat"
  /\ chatHistory s' = []
  /\ documents s' = []
  /\ hasSentMessage s' = false
  /\ apiKey s' = apiKey s
  /\ message s' = message s
  /\ isOnline s' = isOnline s.
Proof.
  unfold createNewChat, seq_handler.
  destruct (saveCurrentChat_effect s clk (start s))
    as (E1 & _ & _ & E4 & E5 & _ & _ & _ & _ & _ & _ & _ & _ & E14 & _).
  cbn zeta in *. cbn. conjs; auto.
Qed.

Lemma loadChat_found_effect s clk chatId chatToLoad :
  find (fun chat => (SavedChat.id chat =? chatId)%string) (savedChats s)
  = Some chatToLoad ->
  let s' := st (loadChat s clk chatId (start s)) in
  savedChats s' = savedAfterSave s clk (savedChats s)
  /\ currentChatId s' = SavedChat.id chatToLoad
  /\ currentChatTitle s' = SavedChat.title chatToLoad
  /\ chatHistory s' = SavedChat.messages chatToLoad
  /\ documents s' = SavedChat.documents chatToLoad
  /\ hasSentMessage s'
     = (0 <? Z.of_nat (List.length (SavedChat.messages chatToLoad))).
Proof.
  intros H. unfold loadChat, seq_handler. rewrite H.
  destruct (saveCurrentChat_effect s clk (start s)) as (E1 & _).
  cbn zeta in *. cbn. conjs; auto.
Qed.

Lemma loadChat_absent_effect s clk chatId :
  find (fun chat => (SavedChat.id chat =? chatId)%string) (savedChats s)
  = None ->
  loadChat s clk chatId (start s) = saveCurrentChat s clk (start s).
Proof. intros H. unfold loadChat, seq_handler. now rewrite H. Qed.

Lemma deleteChat_effect s clk chatId :
  let s' := st (deleteChat s clk chatId (start s)) in
  let others :=
    filter (fun chat => negb (SavedChat.id chat =? chatId)%string)
           (savedChats s) in
  if (currentChatId s =? chatId)%string then
    savedChats s' = savedAfterSave s clk others
    /\ currentChatId s' = "new"
    /\ chatHistory s' = []
    /\ documents s' = []
    /\ hasSentMessage s' = false
  else
    savedChats s' = others
    /\ currentChatId s' = currentChatId s
    /\ chatHistory s' = chatHistory s
    /\ documents s' = documents s
    /\ hasSentMessage s' = hasSentMessage s.
Proof.
  unfold deleteChat, seq_handler.
  destruct (currentChatId s =? chatId)%string.
  - unfold createNewChat, seq_handler.
    match goal with
    | |- context [saveCurrentChat s clk ?x] =>
        destruct (saveCurrentChat_effect s clk x) as (E1 & _)
    end.
    cbn zeta in *. cbn. conjs; auto.
  - cbn. conjs; auto.
Qed.

(** What an invocation of [sendMessage] from the render of [s] leaves
    behind, when nothing else happens meanwhile. *)
Lemma perform_send_effect trim fuel net clk s :
  (6 <= fuel)%nat ->
  let s' := perform trim fuel (ASendMessage net clk) s in
  SameButNotice s s'
  \/ (hasSentMessage s = false
      /\ hasSentMessage s' = true
      /\ (exists tail,
             chatHistory s' = (chatHistory s ++ userMessage s :: tail)%list)
      /\ documents s' = documents s
      /\ ((savedChats s' = savedChats s
           /\ currentChatId s' = currentChatId s)
          \/ (savedChats s' = savedAfterSave s clk (savedChats s)
              /\ currentChatId s'
                 = idAfterSave s clk (currentChatId s)))).
Proof.
  intros Hfuel. cbn [perform].
  destruct (hasSentMessage s) eqn:Hs.
  { rewrite (sendMessage_already_sent _ _ _ _ _ _ Hs).
    left. apply SameButNotice_refl. }
  destruct (passesPreconditions trim s) eqn:P.
  - destruct (sendMessage_effect trim fuel s net clk (start s) P Hfuel)
      as (e & r' & tail & H1 & H2 & _ & _ & H5 & _ & _ & _ & _ & H10 & _
          & _ & _ & H14).
    rewrite H1. cbn zeta. right. conjs; auto.
    + now exists tail.
    + destruct H14 as [H14|(_ & H14)]; [now left|now right].
  - destruct (sendMessage_invalid trim fuel s net clk (start s) Hs P)
      as (msg & H1).
    rewrite H1. left. now constructor.
Qed.

(** ** Invariants *)

Lemma flagMatchesTranscript_step trim fuel a s :
  (6 <= fuel)%nat ->
  flagMatchesTranscript s ->
  flagMatchesTranscript (perform trim fuel a s).
Proof.
  intros Hfuel I. unfold flagMatchesTranscript in *.
  destruct a; try exact I.
  - destruct (perform_send_effect trim fuel net clk s Hfuel)
      as [[]|(_ & H2 & (tail & H3) & _)]; cbn zeta in *.
    + congruence.
    + rewrite H2, H3, length_app. cbn [List.length].
      symmetry. apply Z.ltb_lt. lia.
  - cbn [perform]. destruct (createNewChat_effect s clk)
      as (_ & _ & _ & E4 & _ & E6 & _).
    cbn zeta in *. now rewrite E4, E6.
  - destruct (saveCurrentChat_effect s clk (start s))
      as (_ & _ & _ & _ & _ & E6 & _ & _ & _ & _ & _ & _ & E13 & _).
    cbn zeta in *. cbn [perform]. now rewrite E6, E13.
  - cbn [perform].
    destruct (find (fun chat => (SavedChat.id chat =? chatId)%string)
                   (savedChats s)) as [chat|] eqn:F.
    + destruct (loadChat_found_effect s clk chatId chat F)
        as (_ & _ & _ & E4 & _ & E6).
      cbn zeta in *. now rewrite E4, E6.
    + rewrite (loadChat_absent_effect s clk chatId F).
      destruct (saveCurrentChat_effect s clk (start s))
        as (_ & _ & _ & _ & _ & E6 & _ & _ & _ & _ & _ & _ & E13 & _).
      cbn zeta in *. now rewrite E6, E13.
  - cbn [perform]. pose proof (deleteChat_effect s clk chatId) as D.
    cbn zeta in D. destruct (currentChatId s =? chatId)%string.
    + destruct D as (_ & _ & D3 & _ & D5). now rewrite D3, D5.
    + destruct D as (_ & _ & D3 & _ & D5). now rewrite D3, D5.
  - cbn [perform]. unfold handleManualTextSubmit.
    destruct (Js.truthy (trim (manualText s))); exact I.
Qed.

(** X11.  From a freshly mounted component, after any sequence of
    actions (each invocation of [sendMessage] running to its end before the
    next action), the sent flag is set exactly when the transcript is
    non-empty. *)
Theorem sent_flag_matches_transcript :
  forall trim fuel storedApiKey storedSavedChats onLine acts,
    (6 <= fuel)%nat ->
    flagMatchesTranscript
      (performAll trim fuel acts
         (initialState storedApiKey storedSavedChats onLine)).
Proof.
  intros trim fuel key chats onLine acts Hfuel.
  assert (G : forall s, flagMatchesTranscript s ->
                        flagMatchesTranscript (performAll trim fuel acts s)).
  { induction acts as [|a acts IH]; intros s I; [exact I|].
    cbn [performAll]. apply IH. now apply flagMatchesTranscript_step. }
  apply G. reflexivity.
Qed.

(** X10.  In a state where the sent flag matches the transcript, an
    invocation of [sendMessage] never changes the stored conversations
    or the current id: the save of line 302 reads the transcript of the
    render in which the send started, which is empty. *)
Theorem send_never_stores :
  forall trim fuel net clk s,
    (6 <= fuel)%nat ->
    flagMatchesTranscript s ->
    let s' := perform trim fuel (ASendMessage net clk) s in
    savedChats s' = savedChats s /\ currentChatId s' = currentChatId s.
Proof.
  intros trim fuel net clk s Hfuel I.
  destruct (perform_send_effect trim fuel net clk s Hfuel)
    as [[]|(H1 & _ & _ & _ & [H5|(H5 & H6)])]; cbn zeta in *; auto.
  unfold flagMatchesTranscript in I. rewrite H1 in I.
  unfold savedAfterSave in H5. unfold idAfterSave in H6.
  rewrite <- I in H5, H6. auto.
Qed.

Lemma sent_flag_matches_transcript_witness :
  flagMatchesTranscript
    (performAll Sample.trim 6
       [AMessageChange "What is X?";
        AFileUpload [{| file_name := "notes.txt"; file_type := "text/plain";
                        file_result := Some "X is Y." |}];
        ASendMessage (Scenario.failing (Scenario.answers Sample.answer))
          Sample.clk;
        ACreateNewChat Sample.clk;
        ALoadChat "1700000360000" Sample.clk]
       (initialState "sk-test" [] true)).
Proof.
  apply (sent_flag_matches_transcript Sample.trim 6 "sk-test" [] true). lia.
Defined.

Lemma send_never_stores_witness :
  savedChats
    (perform Sample.trim 6
       (ASendMessage (Sample.always (Scenario.answers Sample.answer))
          Sample.clk) Sample.ready) = []
  /\ chatHistory
       (perform Sample.trim 6
          (ASendMessage (Sample.always (Scenario.answers Sample.answer))
             Sample.clk) Sample.ready)
     = [Sample.question; Sample.answer].
Proof.
  split; [|reflexivity].
  apply (send_never_stores Sample.trim 6
           (Sample.always (Scenario.answers Sample.answer)) Sample.clk
           Sample.ready); [lia|reflexivity].
Defined.

(** ** The store *)

Lemma in_ids_filter x y (chats : list SavedChat.t) :
  In x (map SavedChat.id
          (filter (fun chat => negb (SavedChat.id chat =? y)%string) chats))
  <-> In x (map SavedChat.id chats) /\ x <> y.
Proof.
  rewrite !in_map_iff. split.
  - intros (chat & <- & H). apply filter_In in H as [H1 H2].
    apply negb_true_iff, String.eqb_neq in H2.
    split; [now exists chat|exact H2].
  - intros [(chat & <- & H1) H2]. exists chat. split; [reflexivity|].
    apply filter_In. split; [exact H1|].
    now apply negb_true_iff, String.eqb_neq.
Qed.

Lemma NoDup_ids_filter (p : SavedChat.t -> bool) (chats : list SavedChat.t) :
  NoDup (map SavedChat.id chats) ->
  NoDup (map SavedChat.id (filter p chats)).
Proof.
  induction chats as [|chat chats IH]; intros H; [constructor|].
  cbn in H. apply NoDup_cons_iff in H as [H1 H2].
  cbn [filter]. destruct (p chat); [|now apply IH].
  cbn. constructor; [|now apply IH].
  intros N. apply H1. apply in_map_iff in N as (x & E & N).
  apply filter_In in N as [N _]. rewrite <- E. now apply in_map.
Qed.

Lemma savedAfterSave_empty c clk prev :
  chatHistory c = [] -> savedAfterSave c clk prev = prev.
Proof. intros H. unfold savedAfterSave. now rewrite H. Qed.

Lemma savedAfterSave_ids c clk prev :
  chatHistory c <> [] ->
  map SavedChat.id (savedAfterSave c clk prev)
  = idAfterSave c clk (currentChatId c)
      :: map SavedChat.id
           (if (currentChatId c =? "new")%string then prev
            else filter (fun chat =>
                   negb (SavedChat.id chat =? currentChatId c)%string) prev).
Proof.
  intros H. unfold savedAfterSave, idAfterSave, chatToSave.
  rewrite (nonempty_length _ H).
  destruct (currentChatId c =? "new")%string; reflexivity.
Qed.

Lemma savedAfterSave_NoDup c clk prev :
  NoDup (map SavedChat.id prev) ->
  ~ In (Js.string_of_Z (now clk)) (map SavedChat.id prev) ->
  NoDup (map SavedChat.id (savedAfterSave c clk prev)).
Proof.
  intros N F. destruct (chatHistory c) as [|m ms] eqn:H.
  - now rewrite savedAfterSave_empty.
  - rewrite savedAfterSave_ids by congruence.
    unfold idAfterSave. rewrite H. cbn [List.length].
    replace (0 <? Z.of_nat (S (List.length ms))) with true
      by (symmetry; apply Z.ltb_lt; lia).
    cbn [andb]. destruct (currentChatId c =? "new")%string.
    + now constructor.
    + constructor; [|now apply NoDup_ids_filter].
      intros I. apply in_ids_filter in I as [_ I]. now apply I.
Qed.

Lemma savedAfterSave_active c clk prev :
  currentChatId c = "new" \/ In (currentChatId c) (map SavedChat.id prev) ->
  idAfterSave c clk (currentChatId c) = "new"
  \/ In (idAfterSave c clk (currentChatId c))
        (map SavedChat.id (savedAfterSave c clk prev)).
Proof.
  intros I. destruct (chatHistory c) as [|m ms] eqn:H.
  - rewrite savedAfterSave_empty by exact H.
    unfold idAfterSave. rewrite H. exact I.
  - right. rewrite savedAfterSave_ids by congruence. now left.
Qed.

Lemma activeIdStored_step trim fuel a s :
  (6 <= fuel)%nat ->
  activeIdStored s ->
  activeIdStored (perform trim fuel a s).
Proof.
  intros Hfuel I. unfold activeIdStored in *.
  destruct a; try exact I.
  - destruct (perform_send_effect trim fuel net clk s Hfuel)
      as [[]|(_ & _ & _ & _ & [[H5 H6]|[H5 H6]])]; cbn zeta in *.
    + now rewrite sbn_currentChatId0, sbn_savedChats0.
    + now rewrite H5, H6.
    + rewrite H5, H6. now apply savedAfterSave_active.
  - cbn [perform]. destruct (createNewChat_effect s clk) as (_ & E2 & _).
    now left.
  - cbn [perform].
    destruct (saveCurrentChat_effect s clk (start s)) as (E1 & E2 & _).
    cbn zeta in *. cbn [st start] in *. rewrite E1, E2.
    now apply savedAfterSave_active.
  - cbn [perform].
    destruct (find (fun chat => (SavedChat.id chat =? chatId)%string)
                   (savedChats s)) as [chat|] eqn:F.
    + destruct (loadChat_found_effect s clk chatId chat F)
        as (E1 & E2 & _).
      cbn zeta in *. rewrite E1, E2. right.
      apply find_some in F as [F _].
      destruct (chatHistory s) as [|m ms] eqn:H.
      * rewrite savedAfterSave_empty by exact H. now apply in_map.
      * rewrite savedAfterSave_ids by congruence.
        destruct (currentChatId s =? "new")%string eqn:N.
        -- right. now apply in_map.
        -- destruct (String.eqb_spec (SavedChat.id chat) (currentChatId s))
             as [Y|Y].
           ++ left. unfold idAfterSave. rewrite N, andb_false_r.
              now symmetry.
           ++ right. apply in_ids_filter. split; [now apply in_map|exact Y].
    + rewrite (loadChat_absent_effect s clk chatId F).
      destruct (saveCurrentChat_effect s clk (start s)) as (E1 & E2 & _).
      cbn zeta in *. cbn [st start] in *. rewrite E1, E2.
      now apply savedAfterSave_active.
  - cbn [perform]. pose proof (deleteChat_effect s clk chatId) as D.
    cbn zeta in D. destruct (currentChatId s =? chatId)%string eqn:E.
    + destruct D as (_ & D2 & _). now left.
    + destruct D as (D1 & D2 & _). rewrite D1, D2.
      destruct I as [I|I]; [now left|right].
      apply in_ids_filter. split; [exact I|]. now apply String.eqb_neq.
  - cbn [perform]. unfold handleManualTextSubmit.
    destruct (Js.truthy (trim (manualText s))); exact I.
Qed.

(** X12.  From a freshly mounted component, after any sequence of
    actions (each invocation of [sendMessage] running to its end before the
    next action), the current id is ["new"] or the id of a stored
    conversation. *)
Theorem active_id_is_stored :
  forall trim fuel storedApiKey storedSavedChats onLine acts,
    (6 <= fuel)%nat ->
    activeIdStored
      (performAll trim fuel acts
         (initialState storedApiKey storedSavedChats onLine)).
Proof.
  intros trim fuel key chats onLine acts Hfuel.
  assert (G : forall s, activeIdStored s ->
                        activeIdStored (performAll trim fuel acts s)).
  { induction acts as [|a acts IH]; intros s I; [exact I|].
    cbn [performAll]. apply IH. now apply activeIdStored_step. }
  apply G. now left.
Qed.

Lemma active_id_is_stored_witness :
  activeIdStored
    (performAll Sample.trim 6
       [ALoadChat "1700000000000" Sample.clk;
        AUpdateChatTitle "About X";
        ASaveCurrentChat Sample.clk;
        ADeleteChat "1690000000000" Sample.clk]
       (initialState "sk-test" [Sample.stored; Scenario.other] true))
  /\ currentChatId
       (performAll Sample.trim 6
          [ALoadChat "1700000000000" Sample.clk;
           AUpdateChatTitle "About X";
           ASaveCurrentChat Sample.clk;
           ADeleteChat "1690000000000" Sample.clk]
          (initialState "sk-test" [Sample.stored; Scenario.other] true))
     = "1700000000000".
Proof.
  split; [|reflexivity].
  apply (active_id_is_stored Sample.trim 6 "sk-test"
           [Sample.stored; Scenario.other] true). lia.
Defined.

(** X13.  Every action keeps the ids of the stored conversations
    distinct, provided the id a save may mint from the clock is not in
    use. *)
Theorem stored_ids_stay_distinct :
  forall trim fuel a s,
    (6 <= fuel)%nat ->
    NoDup (map SavedChat.id (savedChats s)) ->
    actionClockFresh a s ->
    NoDup (map SavedChat.id (savedChats (perform trim fuel a s))).
Proof.
  intros trim fuel a s Hfuel N F.
  destruct a; try exact N; cbn [actionClockFresh] in F; unfold clockFresh in F.
  - destruct (perform_send_effect trim fuel net clk s Hfuel)
      as [[]|(_ & _ & _ & _ & [[H5 _]|[H5 _]])]; cbn zeta in *.
    + now rewrite sbn_savedChats0.
    + now rewrite H5.
    + rewrite H5. now apply savedAfterSave_NoDup.
  - cbn [perform]. destruct (createNewChat_effect s clk) as (E1 & _).
    cbn zeta in *. rewrite E1. now apply savedAfterSave_NoDup.
  - cbn [perform].
    destruct (saveCurrentChat_effect s clk (start s)) as (E1 & _).
    cbn zeta in *. cbn [st start] in *. rewrite E1.
    now apply savedAfterSave_NoDup.
  - cbn [perform].
    destruct (find (fun chat => (SavedChat.id chat =? chatId)%string)
                   (savedChats s)) as [chat|] eqn:E.
    + destruct (loadChat_found_effect s clk chatId chat E) as (E1 & _).
      cbn zeta in *. rewrite E1. now apply savedAfterSave_NoDup.
    + rewrite (loadChat_absent_effect s clk chatId E).
      destruct (saveCurrentChat_effect s clk (start s)) as (E1 & _).
      cbn zeta in *. cbn [st start] in *. rewrite E1.
      now apply savedAfterSave_NoDup.
  - cbn [perform]. pose proof (deleteChat_effect s clk chatId) as D.
    cbn zeta in D. destruct (currentChatId s =? chatId)%string.
    + destruct D as (D1 & _). rewrite D1.
      apply savedAfterSave_NoDup; [now apply NoDup_ids_filter|].
      intros I. apply in_ids_filter in I as [I _]. now apply F.
    + destruct D as (D1 & _). rewrite D1. now apply NoDup_ids_filter.
  - cbn [perform]. unfold handleManualTextSubmit.
    destruct (Js.truthy (trim (manualText s))); exact N.
Qed.

Lemma stored_ids_stay_distinct_witness :
  map SavedChat.id
    (savedChats (perform Sample.trim 6 (ACreateNewChat Sample.clk)
                   Sample.answered))
  = ["1700000360000"]
  /\ NoDup (map SavedChat.id
              (savedChats (perform Sample.trim 6 (ACreateNewChat Sample.clk)
                             Sample.answered))).
Proof.
  split; [reflexivity|].
  apply (stored_ids_stay_distinct Sample.trim 6 (ACreateNewChat Sample.clk)
           Sample.answered); [lia|constructor|intros []].
Defined.

(** The hypothesis of X13 is needed: a save that mints an id already in
    use stores a second conversation under it. *)
Example minted_id_can_collide :
  map SavedChat.id
    (savedChats
       (perform Sample.trim 6
          (ASaveCurrentChat {| now := 1700000000000; iso := EmptyString |})
          (st (setSavedChatsWith (fun _ => [Sample.stored])
                 (start Sample.answered)))))
  = ["1700000000000"; "1700000000000"].
Proof. reflexivity. Qed.

(** ** Saving and loading *)

Lemma filter_filter_same {A : Type} (p : A -> bool) (l : list A) :
  filter p (filter p l) = filter p l.
Proof.
  induction l as [|x l IH]; [reflexivity|].
  cbn [filter]. destruct (p x) eqn:E; [|exact IH].
  cbn [filter]. now rewrite E, IH.
Qed.

(** The store and the id after a save of a non-empty transcript. *)
Lemma saveCurrentChat_head s clk :
  chatHistory s <> [] ->
  let s' := st (saveCurrentChat s clk (start s)) in
  savedChats s'
  = chatToSave s clk
      :: (if (currentChatId s =? "new")%string then savedChats s
          else filter (fun chat =>
                 negb (SavedChat.id chat =? currentChatId s)%string)
                 (savedChats s))
  /\ currentChatId s' = SavedChat.id (chatToSave s clk).
Proof.
  intros H.
  destruct (saveCurrentChat_effect s clk (start s)) as (E1 & E2 & _).
  cbn zeta in *. cbn [st start] in *.
  unfold savedAfterSave in E1. unfold idAfterSave in E2.
  rewrite (nonempty_length _ H) in E1, E2. cbn [andb] in E2.
  rewrite E1, E2. unfold chatToSave. cbn.
  destruct (currentChatId s =? "new")%string; split; reflexivity.
Qed.

(** X16.  Saving a session with a non-empty transcript puts one record
    for it at the head of the stored list, holding the transcript, the
    documents, a title and the clock's timestamp; the session's id becomes
    the record's id; and the conversations with any other id are kept, in
    their order. *)
Theorem save_puts_session_first :
  forall s clk,
    chatHistory s <> [] ->
    let s' := st (saveCurrentChat s clk (start s)) in
    exists saved rest,
      savedChats s' = saved :: rest
      /\ SavedChat.messages saved = chatHistory s
      /\ SavedChat.documents saved = documents s
      /\ SavedChat.title saved = titleToSave s
      /\ SavedChat.timestamp saved = iso clk
      /\ SavedChat.id saved = currentChatId s'
      /\ (currentChatId s <> "new" -> currentChatId s' = currentChatId s)
      /\ filter (fun chat =>
           negb (SavedChat.id chat =? currentChatId s')%string) rest
         = filter (fun chat =>
             negb (SavedChat.id chat =? currentChatId s')%string)
             (savedChats s).
Proof.
  intros s clk H.
  destruct (saveCurrentChat_head s clk H) as (E1 & E2).
  cbn zeta in *. eexists _, _. split; [exact E1|].
  rewrite E2. unfold chatToSave. cbn.
  destruct (currentChatId s =? "new")%string eqn:N.
  - conjs; auto. intros X. now apply String.eqb_neq in X; congruence.
  - conjs; auto. apply filter_filter_same.
Qed.

Lemma save_puts_session_first_witness :
  map SavedChat.id
    (savedChats (st (saveCurrentChat Scenario.untitled Sample.clk
                       (start Scenario.untitled))))
  = ["1700000000000"; "1690000000000"]
  /\ exists saved rest,
       savedChats (st (saveCurrentChat Scenario.untitled Sample.clk
                         (start Scenario.untitled))) = saved :: rest
       /\ SavedChat.title saved = "What is X?...".
Proof.
  split; [reflexivity|].
  destruct (save_puts_session_first Scenario.untitled Sample.clk)
    as (saved & rest & H1 & _ & _ & H4 & _); [discriminate|].
  exists saved, rest. split; [exact H1|]. rewrite H4. reflexivity.
Defined.

(** X15.  Save, then load the session's id: the session shows the
    transcript and the documents it had, under the title the save stored,
    with the sent flag set. *)
Theorem save_then_load_round_trip :
  forall trim fuel s clk clk',
    chatHistory s <> [] ->
    let s1 := perform trim fuel (ASaveCurrentChat clk) s in
    let s2 := perform trim fuel (ALoadChat (currentChatId s1) clk') s1 in
    chatHistory s2 = chatHistory s
    /\ documents s2 = documents s
    /\ currentChatTitle s2 = titleToSave s
    /\ currentChatId s2 = currentChatId s1
    /\ hasSentMessage s2 = true.
Proof.
  intros trim fuel s clk clk' H. cbn [perform].
  destruct (saveCurrentChat_head s clk H) as (H1 & H6).
  cbn zeta in *. set (s1 := st (saveCurrentChat s clk (start s))) in *.
  assert (F : find (fun chat =>
                      (SavedChat.id chat =? currentChatId s1)%string)
                   (savedChats s1) = Some (chatToSave s clk)).
  { rewrite H1. cbn [find]. now rewrite H6, String.eqb_refl. }
  destruct (loadChat_found_effect s1 clk' (currentChatId s1)
              (chatToSave s clk) F)
    as (_ & E2 & E3 & E4 & E5 & E6).
  cbn zeta in *. rewrite E2, E3, E4, E5, E6, H6.
  conjs; auto. now apply nonempty_length.
Qed.

Lemma save_then_load_round_trip_witness :
  chatHistory
    (perform Sample.trim 6 (ALoadChat "1700000360000" Sample.clk)
       (perform Sample.trim 6 (ASaveCurrentChat Sample.clk)
          Sample.answered))
  = [Sample.question; Sample.answer].
Proof.
  apply (save_then_load_round_trip Sample.trim 6 Sample.answered
           Sample.clk Sample.clk). discriminate.
Defined.

(** X17.  [createNewChat] always leaves a fresh session (id ["new"],
    title ["New Chat"], no transcript, no documents, flag unset, API key
    kept), and does not lose the transcript it replaces: when that was
    non-empty the head of the stored list holds it with its documents, and
    when it was empty the stored list is unchanged. *)
Theorem createNewChat_keeps_transcript :
  forall s clk,
    let s' := st (createNewChat s clk (start s)) in
    currentChatId s' = "new"
    /\ currentChatTitle s' = "New Chat"
    /\ chatHistory s' = []
    /\ documents s' = []
    /\ hasSentMessage s' = false
    /\ apiKey s' = apiKey s
    /\ (chatHistory s = [] -> savedChats s' = savedChats s)
    /\ (chatHistory s <> [] ->
        exists saved rest,
          savedChats s' = saved :: rest
          /\ SavedChat.messages saved = chatHistory s
          /\ SavedChat.documents saved = documents s).
Proof.
  intros s clk.
  destruct (createNewChat_effect s clk)
    as (E1 & E2 & E3 & E4 & E5 & E6 & E7 & _).
  cbn zeta in *. conjs; auto.
  - intros H. rewrite E1. now apply savedAfterSave_empty.
  - intros H. rewrite E1. unfold savedAfterSave.
    rewrite (nonempty_length _ H).
    eexists _, _. split; [reflexivity|]. split; reflexivity.
Qed.

Lemma createNewChat_keeps_transcript_witness :
  (exists saved rest,
      savedChats (st (createNewChat Sample.answered Sample.clk
                        (start Sample.answered))) = saved :: rest
      /\ SavedChat.messages saved = [Sample.question; Sample.answer])
  /\ savedChats (st (createNewChat Sample.ready Sample.clk
                       (start Sample.ready))) = []
  /\ documents (st (createNewChat Sample.ready Sample.clk
                      (start Sample.ready))) = [].
Proof.
  destruct (createNewChat_keeps_transcript Sample.answered Sample.clk)
    as (_ & _ & _ & _ & _ & _ & _ & H).
  destruct (createNewChat_keeps_transcript Sample.ready Sample.clk)
    as (_ & _ & _ & K4 & _ & _ & K7 & _).
  split; [|split; [now apply K7|exact K4]].
  destruct H as (saved & rest & H1 & H2 & _); [discriminate|].
  now exists saved, rest.
Defined.

(** X21.  [loadChat] on a stored id shows that conversation (id, title,
    transcript, documents) and does not lose the transcript it replaces:
    when that was non-empty, the head of the stored list holds it with its
    documents. *)
Theorem loadChat_switches_and_keeps_transcript :
  forall s clk chatId chatToLoad,
    find (fun chat => (SavedChat.id chat =? chatId)%string) (savedChats s)
    = Some chatToLoad ->
    let s' := st (loadChat s clk chatId (start s)) in
    SavedChat.id chatToLoad = chatId
    /\ currentChatId s' = chatId
    /\ currentChatTitle s' = SavedChat.title chatToLoad
    /\ chatHistory s' = SavedChat.messages chatToLoad
    /\ documents s' = SavedChat.documents chatToLoad
    /\ (chatHistory s = [] -> savedChats s' = savedChats s)
    /\ (chatHistory s <> [] ->
        exists saved rest,
          savedChats s' = saved :: rest
          /\ SavedChat.messages saved = chatHistory s
          /\ SavedChat.documents saved = documents s).
Proof.
  intros s clk chatId chat F.
  destruct (loadChat_found_effect s clk chatId chat F)
    as (E1 & E2 & E3 & E4 & E5 & _).
  cbn zeta in *.
  assert (Y : SavedChat.id chat = chatId).
  { apply find_some in F as [_ F]. now apply String.eqb_eq in F. }
  conjs; auto; try congruence.
  - intros H. rewrite E1. now apply savedAfterSave_empty.
  - intros H. rewrite E1. unfold savedAfterSave.
    rewrite (nonempty_length _ H).
    eexists _, _. split; [reflexivity|]. split; reflexivity.
Qed.

Lemma loadChat_switches_and_keeps_transcript_witness :
  chatHistory
    (st (loadChat Scenario.untitled Sample.clk "1690000000000"
           (start Scenario.untitled))) = [Sample.question]
  /\ map SavedChat.id
       (savedChats
          (st (loadChat Scenario.untitled Sample.clk "1690000000000"
                 (start Scenario.untitled))))
     = ["1700000000000"; "1690000000000"].
Proof.
  split; [|reflexivity].
  apply (loadChat_switches_and_keeps_transcript Scenario.untitled
           Sample.clk "1690000000000" Scenario.other). reflexivity.
Defined.

(** X18.  Deleting a conversation other than the active one removes
    every record with that id, keeps the others in their order, and leaves
    the session (id, title, transcript, documents, flag) as it was. *)
Theorem deleteChat_other_removes_only_it :
  forall s clk chatId,
    currentChatId s <> chatId ->
    let s' := st (deleteChat s clk chatId (start s)) in
    savedChats s'
    = filter (fun chat => negb (SavedChat.id chat =? chatId)%string)
             (savedChats s)
    /\ ~ In chatId (map SavedChat.id (savedChats s'))
    /\ (forall chat,
           In chat (savedChats s) ->
           SavedChat.id chat <> chatId ->
           In chat (savedChats s'))
    /\ currentChatId s' = currentChatId s
    /\ currentChatTitle s' = currentChatTitle s
    /\ chatHistory s' = chatHistory s
    /\ documents s' = documents s
    /\ hasSentMessage s' = hasSentMessage s.
Proof.
  intros s clk chatId H. apply String.eqb_neq in H.
  unfold deleteChat, seq_handler. rewrite H. cbn.
  conjs; auto.
  - intros I. apply in_ids_filter in I as [_ I]. now apply I.
  - intros chat I N. apply filter_In. split; [exact I|].
    now apply negb_true_iff, String.eqb_neq.
Qed.

Lemma deleteChat_other_removes_only_it_witness :
  savedChats
    (st (deleteChat Scenario.untitled Sample.clk "1690000000000"
           (start Scenario.untitled)))
  = [Sample.stored].
Proof.
  apply (deleteChat_other_removes_only_it Scenario.untitled Sample.clk
           "1690000000000"). discriminate.
Defined.

(** ** Documents *)

Lemma substring_length_le (n : nat) :
  forall s, (String.length (substring 0 n s) <= n)%nat.
Proof.
  induction n as [|n IH]; intros [|ch s]; cbn; try lia.
  specialize (IH s). lia.
Qed.

Lemma string_length_append (a b : string) :
  String.length (a ++ b) = (String.length a + String.length b)%nat.
Proof. induction a as [|ch a IH]; cbn; [|rewrite IH]; reflexivity. Qed.

Lemma removeAt_filterIndexFrom {A : Type} (docs : list A) :
  forall index k,
    filterIndexFrom (fun i => negb (i =? k + index)%nat) k docs
    = removeAt index docs.
Proof.
  induction docs as [|d docs IH]; intros index k;
    [destruct index; reflexivity|].
  cbn [filterIndexFrom]. destruct index as [|index].
  - rewrite Nat.add_0_r, Nat.eqb_refl. cbn [negb removeAt].
    clear IH. revert k. induction docs as [|d' docs IH]; intros k;
      [reflexivity|].
    cbn [filterIndexFrom].
    replace (S k =? k)%nat with false
      by (symmetry; apply Nat.eqb_neq; lia).
    cbn [negb]. f_equal.
    specialize (IH (S k)). clear - IH.
    assert (E : forall l : list A, forall j,
      (k < j)%nat ->
      filterIndexFrom (fun i => negb (i =? k)%nat) j l = l).
    { induction l as [|x l IHl]; intros j Hj; [reflexivity|].
      cbn [filterIndexFrom].
      replace (j =? k)%nat with false
        by (symmetry; apply Nat.eqb_neq; lia).
      cbn [negb]. f_equal. apply IHl. lia. }
    apply E. lia.
  - replace (k =? k + S index)%nat with false
      by (symmetry; apply Nat.eqb_neq; lia).
    cbn [negb removeAt]. f_equal.
    replace (k + S index)%nat with (S k + index)%nat by lia.
    apply IH.
Qed.

Lemma removeAt_firstn_skipn {A : Type} (docs : list A) :
  forall index,
    removeAt index docs = (firstn index docs ++ skipn (S index) docs)%list.
Proof.
  induction docs as [|d docs IH]; intros [|index]; cbn; try reflexivity.
  f_equal. apply IH.
Qed.

(** X19.  [removeDocument] applies [docs.filter((_, i) => i !== index)]:
    the documents before [index] followed by those after it.  An index
    within the list removes exactly one document; an index past the end
    removes nothing.  No other field changes. *)
Theorem removeDocument_removes_one :
  forall index s,
    let s' := st (removeDocument index (start s)) in
    documents s'
    = filterIndexFrom (fun i => negb (i =? index)%nat) 0 (documents s)
    /\ documents s'
       = (firstn index (documents s) ++ skipn (S index) (documents s))%list
    /\ ((index < List.length (documents s))%nat ->
        S (List.length (documents s')) = List.length (documents s))
    /\ ((List.length (documents s) <= index)%nat ->
        documents s' = documents s)
    /\ chatHistory s' = chatHistory s
    /\ savedChats s' = savedChats s
    /\ hasSentMessage s' = hasSentMessage s.
Proof.
  intros index s. cbn. conjs; auto.
  - symmetry. apply (removeAt_filterIndexFrom (documents s) index 0%nat).
  - apply removeAt_firstn_skipn.
  - intros H. rewrite removeAt_firstn_skipn, length_app, length_firstn,
      length_skipn. lia.
  - intros H. rewrite removeAt_firstn_skipn, firstn_all2 by exact H.
    rewrite skipn_all2 by lia. apply app_nil_r.
Qed.

(** X20.  The title a save stores is never empty: it is the session's
    title when that is non-empty, and otherwise at most 33 characters, the
    first 30 of the first message followed by ["..."], or ["Untitled"]. *)
Theorem saved_title_is_never_empty :
  forall c,
    titleToSave c <> EmptyString
    /\ (currentChatTitle c <> EmptyString ->
        titleToSave c = currentChatTitle c)
    /\ (currentChatTitle c = EmptyString ->
        (String.length (titleToSave c) <= 33)%nat).
Proof.
  intros c. unfold titleToSave, Js.or_else.
  destruct (currentChatTitle c) as [|ch t] eqn:T; cbn [Js.truthy].
  - assert (N : forall a, a ++ "..." <> EmptyString)
      by (intros [|x a]; discriminate).
    destruct (chatHistory c) as [|m ms].
    + conjs; [discriminate|congruence|intros _; cbn; lia].
    + destruct (Js.truthy (ChatMessage.content m)).
      * conjs; [apply N|congruence|].
        intros _. rewrite string_length_append.
        pose proof (substring_length_le 30 (ChatMessage.content m)).
        cbn [String.length]. lia.
      * conjs; [discriminate|congruence|intros _; cbn; lia].
  - conjs; [discriminate|reflexivity|discriminate].
Qed.

Lemma Forall_removeAt {A : Type} (P : A -> Prop) (docs : list A) :
  forall index, Forall P docs -> Forall P (removeAt index docs).
Proof.
  induction docs as [|d docs IH]; intros [|index] H; cbn; auto;
    inversion H; subst; auto.
Qed.

Lemma Forall_filter {A : Type} (P : A -> Prop) (p : A -> bool)
    (l : list A) :
  Forall P l -> Forall P (filter p l).
Proof.
  intros H. apply Forall_forall. intros x I.
  apply filter_In in I as [I _]. revert x I. now apply Forall_forall.
Qed.

Lemma savedAfterSave_docsBounded c clk prev :
  Forall docBounded (documents c) ->
  Forall (fun chat => Forall docBounded (SavedChat.documents chat)) prev ->
  Forall (fun chat => Forall docBounded (SavedChat.documents chat))
         (savedAfterSave c clk prev).
Proof.
  intros D S. unfold savedAfterSave.
  destruct (0 <? _); [|exact S].
  constructor; [exact D|].
  destruct (negb _); [now apply Forall_filter|exact S].
Qed.

(** X14.  Every action keeps every document, attached or stored, at no
    more than 3000 characters: uploads and manual text are cut to that
    length when they are added. *)
Theorem documents_stay_bounded :
  forall trim fuel a s,
    (6 <= fuel)%nat ->
    docsBounded s ->
    docsBounded (perform trim fuel a s).
Proof.
  intros trim fuel a s Hfuel [D S]. unfold docsBounded.
  destruct a; try (split; assumption).
  - destruct (perform_send_effect trim fuel net clk s Hfuel)
      as [[]|(_ & _ & _ & H4 & [[H5 _]|[H5 _]])]; cbn zeta in *.
    + now rewrite sbn_documents0, sbn_savedChats0.
    + now rewrite H4, H5.
    + rewrite H4, H5. split; [exact D|].
      now apply savedAfterSave_docsBounded.
  - cbn [perform].
    destruct (createNewChat_effect s clk) as (E1 & _ & _ & _ & E5 & _).
    cbn zeta in *. rewrite E1, E5. split; [constructor|].
    now apply savedAfterSave_docsBounded.
  - cbn [perform].
    destruct (saveCurrentChat_effect s clk (start s))
      as (E1 & _ & _ & _ & _ & _ & _ & _ & _ & E10 & _).
    cbn zeta in *. cbn [st start] in *. rewrite E1, E10.
    split; [exact D|]. now apply savedAfterSave_docsBounded.
  - cbn [perform].
    destruct (find (fun chat => (SavedChat.id chat =? chatId)%string)
                   (savedChats s)) as [chat|] eqn:E.
    + destruct (loadChat_found_effect s clk chatId chat E)
        as (E1 & _ & _ & _ & E5 & _).
      cbn zeta in *. rewrite E1, E5. split.
      * apply find_some in E as [E _].
        exact (proj1 (Forall_forall _ _) S chat E).
      * now apply savedAfterSave_docsBounded.
    + rewrite (loadChat_absent_effect s clk chatId E).
      destruct (saveCurrentChat_effect s clk (start s))
        as (E1 & _ & _ & _ & _ & _ & _ & _ & _ & E10 & _).
      cbn zeta in *. cbn [st start] in *. rewrite E1, E10.
      split; [exact D|]. now apply savedAfterSave_docsBounded.
  - cbn [perform]. pose proof (deleteChat_effect s clk chatId) as X.
    cbn zeta in X. destruct (currentChatId s =? chatId)%string.
    + destruct X as (X1 & _ & _ & X4 & _). rewrite X1, X4.
      split; [constructor|].
      apply savedAfterSave_docsBounded; [exact D|now apply Forall_filter].
    + destruct X as (X1 & _ & _ & X4 & _). rewrite X1, X4.
      split; [exact D|now apply Forall_filter].
  - cbn. split; [|exact S]. apply Forall_app. split; [exact D|].
    apply Forall_forall. intros d I.
    apply in_map_iff in I as (file & <- & _). unfold docBounded. cbn.
    destruct (file_result file); [apply substring_length_le|cbn; lia].
  - cbn [perform]. unfold handleManualTextSubmit.
    destruct (Js.truthy (trim (manualText s))); [|split; assumption].
    cbn. split; [|exact S]. apply Forall_app. split; [exact D|].
    constructor; [|constructor]. apply substring_length_le.
  - cbn. split; [|exact S]. now apply Forall_removeAt.
Qed.

Lemma documents_stay_bounded_witness :
  docsBounded
    (perform Sample.trim 6
       (AFileUpload [{| file_name := "notes.txt";
                        file_type := "text/plain";
                        file_result := Some "X is Y." |};
                     {| file_name := "image.png"; file_type := "image/png";
                        file_result := None |}])
       Sample.ready)
  /\ List.length
       (documents
          (perform Sample.trim 6
             (AFileUpload [{| file_name := "notes.txt";
                              file_type := "text/plain";
                              file_result := Some "X is Y." |};
                           {| file_name := "image.png";
                              file_type := "image/png";
                              file_result := None |}])
             Sample.ready)) = 3%nat.
Proof.
  split; [|reflexivity].
  apply (documents_stay_bounded Sample.trim 6); [lia|].
  split; [|constructor].
  constructor; [|constructor]. unfold docBounded. cbn. lia.
Defined.

(** ** A reply that arrives late *)

(** X22.  The setters of an attempt act on the state that is current
    when the response arrives: a 2xx response with a message appends it to
    whatever transcript is then shown and leaves the sent flag as it finds
    it, while the save uses the id and transcript of the render in which
    the send began. *)
Theorem reply_lands_in_current_transcript :
  forall c net clk msgs n r response m em,
    net (fetches (trace r)) = Resolved response ->
    ok response = true ->
    body response = JData (Some m) em ->
    exists r',
      attempt c net clk msgs n r = Return ExitResponseOk r'
      /\ chatHistory (st r') = (chatHistory (st r) ++ [m])%list
      /\ hasSentMessage (st r') = hasSentMessage (st r)
      /\ documents (st r') = documents (st r)
      /\ isLoading (st r') = false
      /\ savedChats (st r') = savedAfterSave c clk (savedChats (st r))
      /\ currentChatId (st r') = idAfterSave c clk (currentChatId (st r)).
Proof.
  intros c net clk msgs n r response m em Hnet Hok Hb.
  rewrite (attempt_ok c net clk msgs n r response (Some m) em Hnet Hok Hb).
  eexists. split; [reflexivity|].
  destruct (ok_final_state c clk (apiKey c) msgs r (Some m))
    as (_ & T2 & _ & T4 & _ & T6 & T7 & []).
  cbn zeta in *. conjs; auto.
Qed.

Lemma reply_lands_in_current_transcript_witness :
  exists r',
    attempt Sample.ready
      (Sample.always (Scenario.answers Sample.answer)) Sample.clk
      (apiMessages Sample.ready) 0
      (start (perform Sample.trim 6 (ACreateNewChat Sample.clk)
                Sample.answered))
    = Return ExitResponseOk r'
    /\ chatHistory (st r') = [Sample.answer]
    /\ hasSentMessage (st r') = false.
Proof.
  destruct (reply_lands_in_current_transcript Sample.ready
              (Sample.always (Scenario.answers Sample.answer)) Sample.clk
              (apiMessages Sample.ready) 0
              (start (perform Sample.trim 6 (ACreateNewChat Sample.clk)
                        Sample.answered))
              {| status := 200; body := JData (Some Sample.answer) None |}
              Sample.answer None)
    as (r' & H1 & H2 & H3 & _); [reflexivity|reflexivity|reflexivity|].
  exists r'. split; [exact H1|]. split; [exact H2|exact H3].
Defined.

Lemma removeDocument_removes_one_witness :
  documents (st (removeDocument 1 (start Sample.emptyFiles)))
  = [Sample.doc EmptyString]
  /\ documents (st (removeDocument 2 (start Sample.emptyFiles)))
     = documents Sample.emptyFiles.
Proof.
  destruct (removeDocument_removes_one 1 Sample.emptyFiles)
    as (_ & H & _).
  destruct (removeDocument_removes_one 2 Sample.emptyFiles)
    as (_ & _ & _ & K & _).
  split; [exact H|]. apply K. cbn. lia.
Defined.

Lemma saved_title_is_never_empty_witness :
  titleToSave Scenario.untitled = "What is X?..."
  /\ (String.length (titleToSave Scenario.untitled) <= 33)%nat.
Proof.
  split; [reflexivity|].
  apply (saved_title_is_never_empty Scenario.untitled). reflexivity.
Defined.

(** ** C2 *)

Lemma schedule_length bearer msgs k :
  forall n, List.length (schedule bearer msgs n k) = (2 * k)%nat.
Proof.
  induction k as [|k IH]; intros n; [reflexivity|].
  cbn [schedule List.length]. rewrite IH. lia.
Qed.

Lemma schedule_nth bearer msgs k :
  forall n i,
    (i < k)%nat ->
    nth_error (schedule bearer msgs n k) (2 * i) = Some (Fetch bearer msgs)
    /\ nth_error (schedule bearer msgs n k) (2 * i + 1)
       = Some (Wait (INITIAL_BACKOFF_MS * 2 ^ (n + Z.of_nat i))).
Proof.
  induction k as [|k IH]; intros n i Hi; [lia|].
  destruct i as [|i].
  - cbn. now rewrite Z.add_0_r.
  - replace (2 * S i)%nat with (S (S (2 * i))) by lia.
    replace (S (S (2 * i)) + 1)%nat with (S (S (2 * i + 1))) by lia.
    cbn [schedule nth_error].
    destruct (IH (n + 1) i ltac:(lia)) as [H1 H2].
    split; [exact H1|]. rewrite H2.
    now replace (n + Z.of_nat (S i)) with (n + 1 + Z.of_nat i) by lia.
Qed.

Lemma schedule_waits_in bearer msgs k :
  forall n ms,
    In (Wait ms) (schedule bearer msgs n k) ->
    exists i, (i < k)%nat /\ ms = INITIAL_BACKOFF_MS * 2 ^ (n + Z.of_nat i).
Proof.
  induction k as [|k IH]; intros n ms H; [destruct H|].
  cbn [schedule] in H. destruct H as [H|[H|H]]; [discriminate| |].
  - injection H as <-. exists O. split; [lia|]. now rewrite Z.add_0_r.
  - apply IH in H as (i & Hi & ->). exists (S i). split; [lia|].
    now replace (n + Z.of_nat (S i)) with (n + 1 + Z.of_nat i) by lia.
Qed.

(** C2, as the code has it.  In an invocation that passes the guards and
    whose first [j <= 5] attempts fail transiently (a retryable HTTP
    status or a thrown error), attempt [j] being the last one: the trace
    starts with a call of [fetch]; for every [n < j] (so [n <= 4]) the
    [n]-th call is followed at once by one wait of [1000 * 2^n] ms, which
    is followed at once by the next call; the run ends with call [j],
    with no wait after it.  So a wait is one of 1, 2, 4, 8 and 16 s, and
    after a failure of the sixth attempt there is no wait: 32 s never
    occurs. *)
Theorem C2_backoff_between_attempts :
  forall trim fuel c net clk j,
    passesPreconditions trim c = true ->
    (6 <= fuel)%nat ->
    (j <= 5)%nat ->
    (forall i, (i < j)%nat -> transient (net i) = true) ->
    j = 5%nat \/ transient (net j) = false ->
    exists e r,
      sendMessage trim fuel c net clk (start c) = Some (e, r)
      /\ List.length (trace r) = (2 * j + 1)%nat
      /\ (forall n, (n <= j)%nat ->
            nth_error (trace r) (2 * n)
            = Some (Fetch (apiKey c) (apiMessages c)))
      /\ (forall n, (n < j)%nat ->
            nth_error (trace r) (2 * n + 1)
            = Some (Wait (1000 * 2 ^ Z.of_nat n)))
      /\ (forall ms, In (Wait ms) (trace r) ->
            exists n, (n < j)%nat /\ (n <= 4)%nat
                      /\ ms = 1000 * 2 ^ Z.of_nat n).
Proof.
  intros trim fuel c net clk j P Hfuel Hj Hpre Hlast.
  destruct (sendMessage_run trim fuel c net clk j P Hfuel Hj Hpre Hlast)
    as (e & r_last & r & S1 & S2 & S3 & _).
  pose proof (attempt_spec c net clk (apiMessages c) (Z.of_nat j) r_last)
    as A.
  rewrite S3 in A. destruct A as (_ & A & _). rewrite S2 in A.
  pose proof (schedule_length (apiKey c) (apiMessages c) j 0) as L.
  exists e, r. split; [exact S1|]. rewrite A. conjs.
  - rewrite length_app, L. cbn. lia.
  - intros n Hn. destruct (Nat.eq_dec n j) as [->|N].
    + rewrite nth_error_app2 by lia. rewrite L, Nat.sub_diag. reflexivity.
    + rewrite nth_error_app1 by lia.
      now destruct (schedule_nth (apiKey c) (apiMessages c) j 0 n
                      ltac:(lia)).
  - intros n Hn. rewrite nth_error_app1 by lia.
    destruct (schedule_nth (apiKey c) (apiMessages c) j 0 n Hn) as [_ H].
    rewrite H. reflexivity.
  - intros ms H. apply in_app_or in H as [H|[H|[]]]; [|discriminate].
    apply schedule_waits_in in H as (n & Hn & ->).
    exists n. split; [exact Hn|]. split; [lia|reflexivity].
Qed.

Lemma C2_backoff_between_attempts_witness :
  exists e r,
    sendMessage Sample.trim 6 Sample.ready
      (Scenario.failing (Scenario.answers Sample.answer)) Sample.clk
      (start Sample.ready) = Some (e, r)
    /\ List.length (trace r) = 11%nat
    /\ nth_error (trace r) 8
       = Some (Fetch "sk-test" (apiMessages Sample.ready))
    /\ nth_error (trace r) 9 = Some (Wait 16000)
    /\ nth_error (trace r) 10
       = Some (Fetch "sk-test" (apiMessages Sample.ready)).
Proof.
  destruct (C2_backoff_between_attempts Sample.trim 6 Sample.ready
              (Scenario.failing (Scenario.answers Sample.answer))
              Sample.clk 5)
    as (e & r & H1 & H2 & H3 & H4 & _); [reflexivity|lia|lia| |now left|].
  - intros [|[|[|[|[|i]]]]] Hi; try reflexivity; lia.
  - exists e, r. split; [exact H1|]. split; [exact H2|].
    split; [exact (H3 4%nat ltac:(lia))|].
    split; [exact (H4 4%nat ltac:(lia))|exact (H3 5%nat ltac:(lia))].
Defined.

(** C2 as stated fails at [n = 5]: of the six delays the specification
    lists, the sixth is never inserted.  When all six attempts fail with
    status 503, the failure of attempt 5 is retryable-shaped and yet the
    run ends with that call: five waits, 1 s to 16 s, and no 32 s. *)
Lemma C2_counterexample :
  specBackoffDelays = [1000; 2000; 4000; 8000; 16000; 32000]
  /\ exists e r,
       sendMessage Sample.trim 6 Sample.ready
         (Sample.always (Sample.http 503)) Sample.clk
         (start Sample.ready) = Some (e, r)
       /\ retryableShaped (Sample.always (Sample.http 503) 5%nat) = true
       /\ fetches (trace r) = 6%nat
       /\ waits (trace r) = [1000; 2000; 4000; 8000; 16000]
       /\ waits (trace r) <> specBackoffDelays
       /\ nth_error (waits (trace r)) 5 = None
       /\ ~ In (Wait 32000) (trace r)
       /\ last (trace r) (Wait 0)
          = Fetch "sk-test" (apiMessages Sample.ready).
Proof.
  split; [reflexivity|].
  eexists _, _. split; [reflexivity|].
  split; [reflexivity|]. split; [reflexivity|]. split; [reflexivity|].
  split; [discriminate|]. split; [reflexivity|]. split; [|reflexivity].
  cbn. intros H.
  repeat (destruct H as [H|H]; [discriminate|]). exact H.
Qed.
